(** * ESP32 NTRIP DUO: the fan-out/relay engine, embedded and verified

    A shallow embedding of the connection-owning components of the firmware:

    - [Uplink]       main/interface/ntrip_server.c and ntrip_server_2.c
                     (the two caster uplinks, identical up to tag and keys);
    - [SocketServer] main/interface/socket_server.c (the peer table);
    - [SocketClient] main/interface/socket_client.c;
    - [SdLogger]     main/sd_logger.c.

    Module-level C statics become fields of a state record that is passed
    explicitly.  Calls into the operating system (sockets, files, FreeRTOS)
    are recorded in a trace of events, and what the outside world answers
    (return values of write, send, accept, ...) is an argument of the
    function that makes the call. *)

From Stdlib Require Import ZArith String Ascii List Lia Bool.
From stdpp Require Import base list strings.

Local Open Scope Z_scope.
#[local] Set Warnings "-clear-no-such-hyp".

(** ** Control flow shared by the embedded functions

    A C function body that can leave its straight-line path early (a
    [return] in the middle of a handler, a [goto _error] in a worker) is a
    computation over a state [S] that logs events of type [E]. *)

Inductive flow (A : Type) : Type :=
| Continue (a : A)
| Leave.
Arguments Continue {A} a.
Arguments Leave {A}.

Definition prog (S E A : Type) : Type := S -> flow A * S * list E.

Definition prog_ret {S E A} (a : A) : prog S E A :=
  fun s => (Continue a, s, []).

Definition prog_bind {S E A B} (m : prog S E A) (k : A -> prog S E B) : prog S E B :=
  fun s =>
    match m s with
    | (Continue a, s1, t1) =>
        match k a s1 with
        | (r, s2, t2) => (r, s2, t1 ++ t2)
        end
    | (Leave, s1, t1) => (Leave, s1, t1)
    end.

Notation "x <- m ;; k" := (prog_bind m (fun x => k))
  (at level 100, m at next level, right associativity).
Notation "m ;;; k" := (prog_bind m (fun _ => k))
  (at level 100, right associativity).

Definition emit {S E} (e : E) : prog S E unit := fun s => (Continue tt, s, [e]).
Definition leave {S E A} : prog S E A := fun s => (Leave, s, []).
Definition get {S E} : prog S E S := fun s => (Continue s, s, []).
Definition modify {S E} (f : S -> S) : prog S E unit := fun s => (Continue tt, f s, []).
Definition when_ {S E} (b : bool) (m : prog S E unit) : prog S E unit :=
  if b then m else prog_ret tt.

(** Run a body to its end; leaving early is a normal end. *)
Definition run {S E A} (m : prog S E A) (s : S) : S * list E :=
  match m s with
  | (_, s', t) => (s', t)
  end.

(** Integer types of the C code. *)
Definition wrap32 (z : Z) : Z := z mod 2 ^ 32.

Definition wrap_int (z : Z) : Z := (z + 2 ^ 31) mod 2 ^ 32 - 2 ^ 31.

(** * The caster uplink *)
Module Uplink.

(** Declarations the two uplink files take from interface/ntrip.h, util.h
    and the application descriptor; these headers are not among the
    sources, so their contents are parameters of the model. *)
Record ntrip_h := {
  NTRIP_KEEP_ALIVE_THRESHOLD : Z;
  NTRIP_SERVER_NAME : string;
  CONNECT_SOCKET_ERROR_RESOLVE : Z;
  CONNECT_SOCKET_ERROR_CONNECT : Z;
  extract_http_header : string -> string -> option string;
  ntrip_response_ok : string -> bool;
  app_version : string;           (* esp_app_get_description()->version *)
  tag : string                    (* "SRV" in ntrip_server.c, "SRV2" in ntrip_server_2.c *)
}.

Definition BUFFER_SIZE : Z := 512.

Definition CASTER_READY_BIT : Z := 1.   (* BIT0 *)
Definition DATA_READY_BIT : Z := 2.     (* BIT1 *)
Definition DATA_SENT_BIT : Z := 4.      (* BIT2 *)

(** Where the worker [ntrip_server_task] stands.  The locals [host], [port]
    and [mountpoint] live across the suspension and are used again after
    it. *)
Inductive worker : Type :=
| AtLoopHead                                   (* about to call retry_delay *)
| WaitingForData                               (* in xEventGroupWaitBits(DATA_READY_BIT, clear on exit) *)
| Connecting                                   (* past the wait, about to resume sleep_task *)
| Streaming (host : string) (port : Z) (mountpoint : string)      (* in vTaskSuspend(NULL) *)
| Disconnecting (host : string) (port : Z) (mountpoint : string). (* resumed by vTaskResume(server_task) *)

Inductive nmea_arg : Type :=
| ArgS (s : string)
| ArgD (d : Z).

Inductive event : Type :=
| EvSetBits (bits : Z)                         (* xEventGroupSetBits *)
| EvClearBits (bits : Z)                       (* xEventGroupClearBits *)
| EvWrite (fd : Z) (data : list Byte.byte)          (* write(fd, data, len) *)
| EvRead (fd : Z) (max : Z)                    (* read(fd, buffer, max) *)
| EvClose (fd : Z)                             (* the close inside destroy_socket *)
| EvResumeServerTask                           (* vTaskResume(server_task) *)
| EvConnectSocket (host : string) (port : Z)   (* connect_socket(host, port, SOCK_STREAM) *)
| EvWaitForIp                                  (* wait_for_ip() *)
| EvNmea (format : string) (args : list nmea_arg)   (* uart_nmea(format, ...) *)
| EvStatsIncrement (total_in total_out : Z)    (* stream_stats_increment *)
| EvRetryDelay                                 (* retry_delay(delay_handle) *)
| EvRetryReset                                 (* retry_reset(delay_handle) *)
| EvTaskDelay (ms : Z).                        (* vTaskDelay(pdMS_TO_TICKS(ms)) *)

(** The file's statics. *)
Record uplink := {
  event_bits : Z;                (* server_event_group *)
  sock : Z;
  sock_mutex_taken : bool;       (* sock_mutex held by somebody else *)
  data_keep_alive : Z;           (* static int *)
  status_led : option bool;      (* NULL, or the LED's active flag *)
  server_task : worker;
  sleep_task_suspended : bool
}.

Definition set_event_bits (b : Z) (u : uplink) : uplink :=
  {| event_bits := b; sock := sock u; sock_mutex_taken := sock_mutex_taken u;
     data_keep_alive := data_keep_alive u; status_led := status_led u;
     server_task := server_task u; sleep_task_suspended := sleep_task_suspended u |}.
Definition set_sock (fd : Z) (u : uplink) : uplink :=
  {| event_bits := event_bits u; sock := fd; sock_mutex_taken := sock_mutex_taken u;
     data_keep_alive := data_keep_alive u; status_led := status_led u;
     server_task := server_task u; sleep_task_suspended := sleep_task_suspended u |}.
Definition set_data_keep_alive (k : Z) (u : uplink) : uplink :=
  {| event_bits := event_bits u; sock := sock u; sock_mutex_taken := sock_mutex_taken u;
     data_keep_alive := k; status_led := status_led u;
     server_task := server_task u; sleep_task_suspended := sleep_task_suspended u |}.
Definition set_status_led (l : option bool) (u : uplink) : uplink :=
  {| event_bits := event_bits u; sock := sock u; sock_mutex_taken := sock_mutex_taken u;
     data_keep_alive := data_keep_alive u; status_led := l;
     server_task := server_task u; sleep_task_suspended := sleep_task_suspended u |}.
Definition set_server_task (w : worker) (u : uplink) : uplink :=
  {| event_bits := event_bits u; sock := sock u; sock_mutex_taken := sock_mutex_taken u;
     data_keep_alive := data_keep_alive u; status_led := status_led u;
     server_task := w; sleep_task_suspended := sleep_task_suspended u |}.
Definition set_sleep_task_suspended (b : bool) (u : uplink) : uplink :=
  {| event_bits := event_bits u; sock := sock u; sock_mutex_taken := sock_mutex_taken u;
     data_keep_alive := data_keep_alive u; status_led := status_led u;
     server_task := server_task u; sleep_task_suspended := b |}.

Definition task (A : Type) : Type := prog uplink event A.

(** *** FreeRTOS primitives, as the uplink uses them *)

Definition bit_set (bits mask : Z) : bool := negb (Z.land bits mask =? 0).

(** Setting bits releases a worker blocked in
    [xEventGroupWaitBits(server_event_group, DATA_READY_BIT, true, false,
    portMAX_DELAY)]; the wait was asked to clear the bit on exit. *)
Definition xEventGroupSetBits (bits : Z) : task unit :=
  emit (EvSetBits bits) ;;;
  modify (fun u =>
    let now := Z.lor (event_bits u) bits in
    match server_task u with
    | WaitingForData =>
        if bit_set now DATA_READY_BIT
        then set_server_task Connecting (set_event_bits (Z.ldiff now DATA_READY_BIT) u)
        else set_event_bits now u
    | _ => set_event_bits now u
    end).

Definition xEventGroupClearBits (bits : Z) : task unit :=
  emit (EvClearBits bits) ;;;
  modify (fun u => set_event_bits (Z.ldiff (event_bits u) bits) u).

(** [vTaskResume] acts on a task that suspended itself, and on no other. *)
Definition vTaskResume_server_task : task unit :=
  emit EvResumeServerTask ;;;
  modify (fun u =>
    match server_task u with
    | Streaming h p m => set_server_task (Disconnecting h p m) u
    | _ => u
    end).

(** Modelled from the spec: [destroy_socket] of util.c, which is not among
    the sources: "a failed write or read immediately tears down the
    handle"; a valid handle is closed and the variable holds -1 after. *)
Definition destroy_socket : task unit :=
  u <- get ;;
  when_ (0 <=? sock u) (emit (EvClose (sock u)) ;;; modify (set_sock (-1))).

(** *** ntrip_server_uart_handler

    [write_result] is what [write] answers for a handle and a chunk. *)
Definition ntrip_server_uart_handler
    (write_result : Z -> list Byte.byte -> Z) (buffer : list Byte.byte) : task unit :=
  u0 <- get ;;
  let bits := event_bits u0 in                         (* xEventGroupGetBits *)
  when_ (Z.land bits DATA_READY_BIT =? 0)
        (xEventGroupSetBits DATA_READY_BIT) ;;;
  modify (set_data_keep_alive 0) ;;;
  (if Z.land bits CASTER_READY_BIT =? 0 then leave else prog_ret tt) ;;;
  when_ (Z.land bits DATA_SENT_BIT =? 0)
        (xEventGroupSetBits DATA_SENT_BIT) ;;;
  u1 <- get ;;
  (* xSemaphoreTake(sock_mutex, 100 ms) == pdTRUE *)
  when_ (negb (sock_mutex_taken u1))
    (when_ (0 <=? sock u1)
       (let sent := write_result (sock u1) buffer in
        emit (EvWrite (sock u1) buffer) ;;;
        if sent <? 0
        then destroy_socket ;;; vTaskResume_server_task ;;; leave
        else emit (EvStatsIncrement 0 sent))).

(** Modelled from the spec: the source dispatch of uart.c, which is not
    among the sources: it "delivers each chunk of serial data
    synchronously to every registered subscriber on the same call path".
    The registered uplinks are a list; the trace tags each event with the
    position of the uplink that caused it. *)
Fixpoint uart_dispatch_from (n : nat) (write_result : Z -> list Byte.byte -> Z)
    (chunk : list Byte.byte) (eps : list uplink) : list uplink * list (nat * event) :=
  match eps with
  | [] => ([], [])
  | u :: rest =>
      let '(u', t) := run (ntrip_server_uart_handler write_result chunk) u in
      let '(rest', t') := uart_dispatch_from (S n) write_result chunk rest in
      (u' :: rest', ((pair n) <$> t) ++ t')
  end.

Definition uart_dispatch := uart_dispatch_from 0.

(** The state the spec calls Streaming: handshake done, handle valid,
    worker parked in [vTaskSuspend(NULL)], mutex free. *)
Definition streaming (u : uplink) : bool :=
  bit_set (event_bits u) CASTER_READY_BIT && (0 <=? sock u) &&
  negb (sock_mutex_taken u) &&
  match server_task u with Streaming _ _ _ => true | _ => false end.

(** *** ntrip_server_sleep_task: one turn of its loop *)
Definition ntrip_server_sleep_task_iter (h : ntrip_h) : task unit :=
  u <- get ;;
  when_ (data_keep_alive u =? NTRIP_KEEP_ALIVE_THRESHOLD h)
        (xEventGroupClearBits DATA_READY_BIT) ;;;
  modify (fun u => set_data_keep_alive
                     (wrap_int (data_keep_alive u + Z.quot (NTRIP_KEEP_ALIVE_THRESHOLD h) 10))
                     u) ;;;
  emit (EvTaskDelay (Z.quot (NTRIP_KEEP_ALIVE_THRESHOLD h) 10)).


(** *** ntrip_server_task *)

(** Modelled from the spec: the macro NEWLINE of util.h, which is not among
    the sources: the request uses "CRLF line endings". *)
Definition NEWLINE : string := String "013" (String "010" EmptyString).

(** [&version[1]]: the version without its first character. *)
Definition version_tail (v : string) : string :=
  match v with
  | EmptyString => EmptyString
  | String _ t => t
  end.

(** What the format of the SOURCE request expands to when nothing is cut. *)
Definition source_request (h : ntrip_h) (password mountpoint : string) : string :=
  "SOURCE " +:+ password +:+ " /" +:+ mountpoint +:+ NEWLINE +:+
  "Source-Agent: NTRIP " +:+ NTRIP_SERVER_NAME h +:+ "/" +:+
  version_tail (app_version h) +:+ NEWLINE +:+ NEWLINE.

(** [snprintf(buffer, size, ...)] keeps at most [size - 1] characters. *)
Definition snprintf (size : Z) (formatted : string) : string :=
  String.substring 0 (Z.to_nat (size - 1)) formatted.

(** What the outside world answers during one connection attempt. *)
Record attempt_env := {
  cfg_port : Z;
  cfg_host : option string;          (* None: config_get_str_blob_alloc left NULL *)
  cfg_password : option string;
  cfg_mountpoint : option string;
  connect_result : Z;                (* connect_socket *)
  request_write_result : Z;          (* write of the request *)
  read_result : Z;                   (* read of the response *)
  response : string                  (* the buffer after buffer[len] = 0 *)
}.

Definition conn_args (host : string) (port : Z) (mountpoint : string) : list nmea_arg :=
  [ArgS host; ArgD port; ArgS mountpoint].

Definition set_led_active (b : bool) : task unit :=
  modify (fun u => match status_led u with
                   | Some _ => set_status_led (Some b) u
                   | None => u
                   end).

(** [ERROR_ACTION(TAG, condition, goto _error, ...)] *)
Definition ERROR_ACTION (condition : bool) : task unit :=
  if condition then leave else prog_ret tt.

(** From the top of the loop to the wait for data. *)
Definition ntrip_server_loop_head (h : ntrip_h) : task unit :=
  emit EvRetryDelay ;;;
  u <- get ;;
  if Z.land (event_bits u) DATA_READY_BIT =? 0
  then emit (EvNmea ("$PESP,NTRIP," +:+ tag h +:+ ",WAITING") []) ;;;
       modify (set_server_task WaitingForData)
  else modify (set_server_task Connecting).

(** From [vTaskResume(sleep_task)] to [vTaskSuspend(NULL)]; [Leave] is
    [goto _error]. *)
Definition ntrip_server_connect (h : ntrip_h) (e : attempt_env) : task unit :=
  modify (set_sleep_task_suspended false) ;;;
  emit EvWaitForIp ;;;
  match cfg_host e, cfg_password e, cfg_mountpoint e with
  | Some host, Some password, Some mountpoint =>
      let port := cfg_port e in
      emit (EvNmea ("$PESP,NTRIP," +:+ tag h +:+ ",CONNECTING,%s:%d,%s")
                   (conn_args host port mountpoint)) ;;;
      emit (EvConnectSocket host port) ;;;
      modify (set_sock (connect_result e)) ;;;
      ERROR_ACTION (connect_result e =? CONNECT_SOCKET_ERROR_RESOLVE h) ;;;
      ERROR_ACTION (connect_result e =? CONNECT_SOCKET_ERROR_CONNECT h) ;;;
      let buffer := snprintf BUFFER_SIZE (source_request h password mountpoint) in
      emit (EvWrite (connect_result e) (String.list_byte_of_string buffer)) ;;;
      ERROR_ACTION (request_write_result e <? 0) ;;;
      emit (EvRead (connect_result e) (BUFFER_SIZE - 1)) ;;;
      ERROR_ACTION (read_result e <=? 0) ;;;
      match extract_http_header h (response e) "" with
      | None => leave
      | Some status => ERROR_ACTION (negb (ntrip_response_ok h status))
      end ;;;
      emit (EvNmea ("$PESP,NTRIP," +:+ tag h +:+ ",CONNECTED,%s:%d,%s")
                   (conn_args host port mountpoint)) ;;;
      emit EvRetryReset ;;;
      set_led_active true ;;;
      xEventGroupSetBits CASTER_READY_BIT ;;;
      modify (set_server_task (Streaming host port mountpoint))
  | _, _, _ => leave
  end.

(** The block at the label [_error], which ends the turn of the loop. *)
Definition ntrip_server_error : task unit :=
  modify (set_sleep_task_suspended true) ;;;
  destroy_socket ;;;
  modify (set_server_task AtLoopHead).

(** One connection attempt: either the worker parks in Streaming, or the
    attempt went to [_error] and the worker is back at the top of the loop. *)
Definition ntrip_server_attempt (h : ntrip_h) (e : attempt_env) (u : uplink)
    : uplink * list event :=
  match ntrip_server_connect h e u with
  | (Continue _, u', t) => (u', t)
  | (Leave, u', t) =>
      let '(u'', t') := run ntrip_server_error u' in (u'', t ++ t')
  end.

(** From the return of [vTaskSuspend(NULL)] to the end of the turn. *)
Definition ntrip_server_disconnected (h : ntrip_h)
    (host : string) (port : Z) (mountpoint : string) : task unit :=
  xEventGroupClearBits (Z.lor CASTER_READY_BIT DATA_SENT_BIT) ;;;
  set_led_active false ;;;
  emit (EvNmea ("$PESP,NTRIP," +:+ tag h +:+ ",DISCONNECTED,%s:%d,%s")
               (conn_args host port mountpoint)) ;;;
  ntrip_server_error.

(** The worker, from one blocking point to the next. *)
Definition ntrip_server_task_step (h : ntrip_h) (e : attempt_env) (u : uplink)
    : uplink * list event :=
  match server_task u with
  | AtLoopHead => run (ntrip_server_loop_head h) u
  | WaitingForData => (u, [])
  | Connecting => ntrip_server_attempt h e u
  | Streaming _ _ _ => (u, [])
  | Disconnecting host port mountpoint =>
      run (ntrip_server_disconnected h host port mountpoint) u
  end.

(** A connection attempt that got as far as reading the response. *)
Definition reaches_response (h : ntrip_h) (e : attempt_env) : Prop :=
  is_Some (cfg_host e) /\ is_Some (cfg_password e) /\ is_Some (cfg_mountpoint e) /\
  0 <= connect_result e /\
  connect_result e <> CONNECT_SOCKET_ERROR_RESOLVE h /\
  connect_result e <> CONNECT_SOCKET_ERROR_CONNECT h /\
  0 <= request_write_result e.

(** The response is no acceptance: nothing was read, or no status line
    can be extracted, or the status is not one of the recognised ones. *)
Definition response_rejected (h : ntrip_h) (e : attempt_env) : Prop :=
  read_result e <= 0 \/
  extract_http_header h (response e) "" = None \/
  exists status, extract_http_header h (response e) "" = Some status /\
                 ntrip_response_ok h status = false.

(** The data of the first [write] in a trace. *)
Definition first_write (t : list event) : option (list Byte.byte) :=
  head (omap (fun e => match e with EvWrite _ d => Some d | _ => None end) t).



(** The handles a trace closed, in order. *)
Definition closed_handles (t : list event) : list Z :=
  omap (fun e => match e with EvClose fd => Some fd | _ => None end) t.

(** The writes of a trace, in order. *)
Definition writes (t : list event) : list (Z * list Byte.byte) :=
  omap (fun e => match e with EvWrite fd d => Some (fd, d) | _ => None end) t.

(** Everything an attempt needs to end in Streaming. *)
Definition attempt_succeeds (h : ntrip_h) (e : attempt_env) : Prop :=
  is_Some (cfg_host e) /\ is_Some (cfg_password e) /\ is_Some (cfg_mountpoint e) /\
  connect_result e <> CONNECT_SOCKET_ERROR_RESOLVE h /\
  connect_result e <> CONNECT_SOCKET_ERROR_CONNECT h /\
  0 <= request_write_result e /\ 0 < read_result e /\
  exists status, extract_http_header h (response e) "" = Some status /\
                 ntrip_response_ok h status = true.

(** *** ntrip_server_init: the worker is created only for an active
    endpoint; [active] is [config_get_bool1] of the endpoint's ACTIVE key. *)
Definition ntrip_server_init (active : bool) : option worker :=
  if negb active then None else Some AtLoopHead.

End Uplink.

(** Error codes of esp_err.h that the modelled functions return. *)
Inductive esp_err_t : Type :=
| ESP_OK
| ESP_FAIL
| ESP_ERR_INVALID_STATE.

(** The further codes of esp_err.h that the init and query functions
    return. *)
Inductive esp_err_more : Type :=
| Err (e : esp_err_t)
| ESP_ERR_INVALID_ARG
| ESP_ERR_NO_MEM
| ESP_ERR_NOT_FOUND.
Coercion Err : esp_err_t >-> esp_err_more.

(** * The socket server and its table of peers *)
Module SocketServer.

Definition MAX_CLIENTS : nat := 10.
Definition SOCKET_BUFFER_SIZE : Z := 1024.

(** [struct sockaddr_in6]; [memcmp] over the whole structure compares every
    field. *)
Record sockaddr_in6 := {
  sin6_family : Z;
  sin6_port : Z;
  sin6_flowinfo : Z;
  sin6_addr : Z;          (* the 128-bit address *)
  sin6_scope_id : Z
}.

#[global] Instance sockaddr_in6_eq_dec : EqDecision sockaddr_in6.
Proof. solve_decision. Defined.

Record socket_client_t := {
  socket : Z;
  addr : sockaddr_in6;
  connected : bool;
  bytes_sent : Z;         (* uint32_t *)
  bytes_received : Z;     (* uint32_t *)
  connect_time : Z
}.

Definition set_connected (b : bool) (c : socket_client_t) : socket_client_t :=
  {| socket := socket c; addr := addr c; connected := b; bytes_sent := bytes_sent c;
     bytes_received := bytes_received c; connect_time := connect_time c |}.
Definition set_bytes_sent (n : Z) (c : socket_client_t) : socket_client_t :=
  {| socket := socket c; addr := addr c; connected := connected c; bytes_sent := n;
     bytes_received := bytes_received c; connect_time := connect_time c |}.
Definition set_bytes_received (n : Z) (c : socket_client_t) : socket_client_t :=
  {| socket := socket c; addr := addr c; connected := connected c; bytes_sent := bytes_sent c;
     bytes_received := n; connect_time := connect_time c |}.

(** The file's statics; [clients] is the array [clients[MAX_CLIENTS]]. *)
Record server := {
  clients : list socket_client_t;
  tcp_server_socket : Z;
  udp_server_socket : Z
}.

Definition set_clients (cl : list socket_client_t) (s : server) : server :=
  {| clients := cl; tcp_server_socket := tcp_server_socket s;
     udp_server_socket := udp_server_socket s |}.

Inductive event : Type :=
| EvClose (fd : Z)
| EvSend (fd : Z) (data : list Byte.byte)                         (* send(fd, data, length, 0) *)
| EvSendTo (fd : Z) (to : sockaddr_in6) (data : list Byte.byte)   (* sendto(fd, data, length, 0, to) *)
| EvUartWrite (data : list Byte.byte).                            (* uart_write_bytes(UART_NUM_0, ...) *)

(** The slot as the accept functions fill it. *)
Definition claimed_slot (fd : Z) (source_addr : sockaddr_in6) (now : Z) : socket_client_t :=
  {| socket := fd; addr := source_addr; connected := true;
     bytes_sent := 0; bytes_received := 0; connect_time := now |}.

(** [for (i = 0; i < MAX_CLIENTS; i++) if (!clients[i].connected) ...]:
    the first free slot. *)
Definition first_free (cl : list socket_client_t) : option nat :=
  fst <$> list_find (fun c => connected c = false) cl.

(** The first connected slot whose address compares equal. *)
Definition first_match (source_addr : sockaddr_in6) (cl : list socket_client_t) : option nat :=
  fst <$> list_find (fun c => connected c = true /\ addr c = source_addr) cl.

(** *** socket_tcp_accept

    [accept_result], [source_addr]: what [accept] answers; [now]: [time(NULL)]. *)
Definition socket_tcp_accept (accept_result : Z) (source_addr : sockaddr_in6) (now : Z)
    (s : server) : Z * server * list event :=
  if accept_result <? 0 then (-1, s, [])
  else
    match first_free (clients s) with
    | Some i =>
        (Z.of_nat i,
         set_clients (<[i := claimed_slot accept_result source_addr now]> (clients s)) s,
         [])
    | None => (-1, s, [EvClose accept_result])
    end.

(** *** socket_udp_accept

    [peek_result], [source_addr]: what [recvfrom(..., MSG_PEEK, ...)] answers. *)
Definition socket_udp_accept (peek_result : Z) (source_addr : sockaddr_in6) (now : Z)
    (server_socket : Z) (s : server) : Z * server :=
  if peek_result <? 0 then (-1, s)
  else
    match first_match source_addr (clients s) with
    | Some i => (Z.of_nat i, s)
    | None =>
        match first_free (clients s) with
        | Some i =>
            (Z.of_nat i,
             set_clients (<[i := claimed_slot server_socket source_addr now]> (clients s)) s)
        | None => (-1, s)
        end
    end.

(** *** socket_send_to_all_clients

    The body of the loop for one slot; [sent] is what [send]/[sendto]
    answers for this slot. *)
Definition send_call (udp_socket : Z) (data : list Byte.byte) (c : socket_client_t) : event :=
  if socket c =? udp_socket
  then EvSendTo (socket c) (addr c) data      (* UDP client *)
  else EvSend (socket c) data.                (* TCP client *)

Definition send_to_client (udp_socket : Z) (data : list Byte.byte) (sent : Z)
    (c : socket_client_t) : socket_client_t * list event :=
  if connected c then
    if sent <? 0
    then (set_connected false c, [send_call udp_socket data c])
    else (set_bytes_sent (wrap32 (bytes_sent c + sent)) c, [send_call udp_socket data c])
  else (c, []).

Fixpoint send_loop (udp_socket : Z) (data : list Byte.byte) (send_result : nat -> Z)
    (i : nat) (cl : list socket_client_t) : list socket_client_t * list (nat * event) :=
  match cl with
  | [] => ([], [])
  | c :: rest =>
      let '(c', t) := send_to_client udp_socket data (send_result i) c in
      let '(rest', t') := send_loop udp_socket data send_result (S i) rest in
      (c' :: rest', ((pair i) <$> t) ++ t')
  end.

(** [send_result i] is the answer to the send on slot [i]; the trace tags
    each call with its slot. *)
Definition socket_send_to_all_clients (send_result : nat -> Z) (data : list Byte.byte)
    (s : server) : server * list (nat * event) :=
  let '(cl, t) := send_loop (udp_server_socket s) data send_result 0 (clients s) in
  (set_clients cl s, t).

(** *** socket_server_task, the datagram branch of one turn

    The receive queue of the datagram socket, oldest first.  A
    [recvfrom] without flags takes the head off the queue, one with
    MSG_PEEK reads the head and leaves it; on an empty queue either blocks
    until the next datagram arrives, so the queue lists the datagrams in
    order of arrival and [None] stands for a call that never returns. *)
Record datagram := {
  dg_from : sockaddr_in6;
  dg_payload : list Byte.byte
}.

Definition add_bytes_received (i : nat) (len : Z) (cl : list socket_client_t)
    : list socket_client_t :=
  match cl !! i with
  | Some c => <[i := set_bytes_received (wrap32 (bytes_received c + len)) c]> cl
  | None => cl
  end.

Definition socket_server_udp_ready (now : Z) (queue : list datagram) (s : server)
    : option (server * list datagram * list event) :=
  match queue with
  | [] => None
  | d :: rest =>
      (* recvfrom(udp_server_socket, buffer, sizeof(buffer) - 1, 0, ...) *)
      let len := Z.min (Z.of_nat (length (dg_payload d))) (SOCKET_BUFFER_SIZE - 1) in
      if 0 <? len then
        (* socket_udp_accept(udp_server_socket) reads the socket again *)
        match rest with
        | [] => None
        | next :: _ =>
            let peek_result := Z.min (Z.of_nat (length (dg_payload next))) 1 in
            let '(client_idx, s') :=
              socket_udp_accept peek_result (dg_from next) now (udp_server_socket s) s in
            let s'' := if 0 <=? client_idx
                       then set_clients (add_bytes_received (Z.to_nat client_idx) len (clients s')) s'
                       else s' in
            Some (s'', rest, [EvUartWrite (take (Z.to_nat len) (dg_payload d))])
        end
      else Some (s, rest, [])
  end.

(** Turn after turn, while datagrams are ready. *)
Fixpoint socket_server_udp_turns (n : nat) (now : Z) (queue : list datagram) (s : server)
    : option (server * list datagram) :=
  match n with
  | O => Some (s, queue)
  | S n' =>
      match socket_server_udp_ready now queue s with
      | Some (s', queue', _) => socket_server_udp_turns n' now queue' s'
      | None => None
      end
  end.

(** *** socket_client_close *)

(** A slot after [memset(&clients[i], 0, sizeof(socket_client_t))]. *)
Definition zeroed_slot : socket_client_t :=
  {| socket := 0;
     addr := {| sin6_family := 0; sin6_port := 0; sin6_flowinfo := 0;
                sin6_addr := 0; sin6_scope_id := 0 |};
     connected := false; bytes_sent := 0; bytes_received := 0; connect_time := 0 |}.

Definition socket_client_close (client_index : Z) (s : server) : server * list event :=
  if (client_index <? 0) || (Z.of_nat MAX_CLIENTS <=? client_index) then (s, [])
  else
    match clients s !! Z.to_nat client_index with
    | Some c =>
        if connected c then
          (set_clients (<[Z.to_nat client_index := zeroed_slot]> (clients s)) s,
           if negb (socket c =? tcp_server_socket s) && negb (socket c =? udp_server_socket s)
           then [EvClose (socket c)] else [])
        else (s, [])
    | None => (s, [])
    end.

(** *** socket_server_task, the other passes of one turn *)

(** [for (i ...) if (!clients[i].connected && clients[i].socket > 0)
    socket_client_close(i);] *)
Definition cleanup_slot (i : nat) (s : server) : server * list event :=
  match clients s !! i with
  | Some c =>
      if negb (connected c) && (0 <? socket c)
      then socket_client_close (Z.of_nat i) s
      else (s, [])
  | None => (s, [])
  end.

Fixpoint cleanup_loop (indices : list nat) (s : server) : server * list event :=
  match indices with
  | [] => (s, [])
  | i :: rest =>
      let '(s1, t1) := cleanup_slot i s in
      let '(s2, t2) := cleanup_loop rest s1 in
      (s2, t1 ++ t2)
  end.

Definition socket_server_cleanup (s : server) : server * list event :=
  cleanup_loop (seq 0 MAX_CLIENTS) s.

(** The loop at the end of the task: [socket_client_close(i)] for every
    slot. *)
Fixpoint close_loop (indices : list nat) (s : server) : server * list event :=
  match indices with
  | [] => (s, [])
  | i :: rest =>
      let '(s1, t1) := socket_client_close (Z.of_nat i) s in
      let '(s2, t2) := close_loop rest s1 in
      (s2, t1 ++ t2)
  end.

Definition socket_server_close_all (s : server) : server * list event :=
  close_loop (seq 0 MAX_CLIENTS) s.

(** The pass over the stream peers that [select] reported readable.
    [readable fd] is [FD_ISSET(fd, &read_fds)]; [recv_result i] and
    [recv_data i] are what [recv] answers on slot [i]. *)
Definition read_from_client (udp_socket : Z) (readable : Z -> bool)
    (len : Z) (data : list Byte.byte) (c : socket_client_t)
    : socket_client_t * list event :=
  if connected c && negb (socket c =? udp_socket) && readable (socket c) then
    if 0 <? len
    then (set_bytes_received (wrap32 (bytes_received c + len)) c,
          [EvUartWrite (take (Z.to_nat len) data)])
    else (set_connected false c, [])      (* len == 0: closed; len < 0: error *)
  else (c, []).

Fixpoint read_loop (udp_socket : Z) (readable : Z -> bool)
    (recv_result : nat -> Z) (recv_data : nat -> list Byte.byte)
    (i : nat) (cl : list socket_client_t) : list socket_client_t * list (nat * event) :=
  match cl with
  | [] => ([], [])
  | c :: rest =>
      let '(c', t) := read_from_client udp_socket readable (recv_result i) (recv_data i) c in
      let '(rest', t') := read_loop udp_socket readable recv_result recv_data (S i) rest in
      (c' :: rest', ((pair i) <$> t) ++ t')
  end.

Definition socket_server_read_clients (readable : Z -> bool)
    (recv_result : nat -> Z) (recv_data : nat -> list Byte.byte) (s : server)
    : server * list (nat * event) :=
  let '(cl, t) := read_loop (udp_server_socket s) readable recv_result recv_data 0 (clients s) in
  (set_clients cl s, t).

(** *** socket_server_task, one turn of its loop

    What the outside world answers during the turn. *)
Record turn_env := {
  select_result : Z;                  (* select(max_fd + 1, &read_fds, ...) *)
  fd_isset : Z -> bool;               (* FD_ISSET(fd, &read_fds) after the select *)
  accept_result : Z;                  (* accept, and the address it fills in *)
  accept_addr : sockaddr_in6;
  time_now : Z;                       (* time(NULL) *)
  recv_result : nat -> Z;             (* recv on slot i *)
  recv_data : nat -> list Byte.byte;
  uart_data : list Byte.byte;         (* what uart_read_bytes put in the buffer *)
  send_result : nat -> Z              (* send or sendto on slot i *)
}.

Inductive turn_event : Type :=
| Call (e : event)                    (* a call outside the loops over the slots *)
| SlotCall (i : nat) (e : event)      (* a call made for slot i *)
| EvTaskDelay (ms : Z).               (* vTaskDelay(ms / portTICK_PERIOD_MS) *)

(** [uart_data_len = uart_read_bytes(...); if (uart_data_len > 0)
    socket_send_to_all_clients(buffer, uart_data_len);] *)
Definition uart_to_clients (e : turn_env) (s : server) : server * list turn_event :=
  if (0 <? length (uart_data e))%nat
  then let '(s', t) := socket_send_to_all_clients (send_result e) (uart_data e) s in
       (s', (fun x => SlotCall x.1 x.2) <$> t)
  else (s, []).

(** The body of [while (server_running)], with the receive queue of the
    datagram socket.  [None]: the turn does not come to its end, the task
    is blocked in a [recvfrom]. *)
Definition socket_server_task_turn (e : turn_env) (queue : list datagram) (s : server)
    : option (server * list datagram * list turn_event) :=
  if select_result e <? 0 then Some (s, queue, [EvTaskDelay 1000])
  else if select_result e =? 0 then
    let '(s', t) := uart_to_clients e s in Some (s', queue, t)
  else
    let '(s1, t1) :=
      if (0 <=? tcp_server_socket s) && fd_isset e (tcp_server_socket s)
      then let '(_, s1, t) :=
             socket_tcp_accept (accept_result e) (accept_addr e) (time_now e) s in
           (s1, Call <$> t)
      else (s, []) in
    match
      (if (0 <=? udp_server_socket s1) && fd_isset e (udp_server_socket s1)
       then socket_server_udp_ready (time_now e) queue s1
       else Some (s1, queue, []))
    with
    | None => None
    | Some (s2, queue', t2) =>
        let '(s3, t3) :=
          socket_server_read_clients (fd_isset e) (recv_result e) (recv_data e) s2 in
        let '(s4, t4) := socket_server_cleanup s3 in
        let '(s5, t5) := uart_to_clients e s4 in
        Some (s5, queue',
              t1 ++ (Call <$> t2) ++ ((fun x => SlotCall x.1 x.2) <$> t3) ++
              (Call <$> t4) ++ t5 ++ [EvTaskDelay 10])
    end.

(** *** socket_init, socket_tcp_init

    [socket_result], [bind_result], [listen_result]: what [socket], [bind]
    and [listen] answer. *)
Definition socket_init (socket_result bind_result : Z) : Z * list event :=
  if socket_result <? 0 then (-1, [])
  else if negb (bind_result =? 0) then (-1, [EvClose socket_result])
  else (socket_result, []).

Definition socket_tcp_init (socket_result bind_result listen_result : Z) : Z * list event :=
  let '(sock, t) := socket_init socket_result bind_result in
  if sock <? 0 then (-1, t)
  else if negb (listen_result =? 0) then (-1, t ++ [EvClose sock])
  else (sock, t).

Definition socket_udp_init (socket_result bind_result : Z) : Z * list event :=
  let '(sock, t) := socket_init socket_result bind_result in
  if sock <? 0 then (-1, t) else (sock, t).

(** *** The queries *)

(** The statics that the queries and the life cycle use beside the table. *)
Record module_state := {
  table : server;
  server_running : bool;
  clients_mutex : bool          (* the mutex exists (is not NULL) *)
}.

(** [socket_server_get_client_count] *)
Definition count_connected (cl : list socket_client_t) : nat :=
  length (filter (fun c => connected c = true) cl).

Definition socket_server_get_client_count (m : module_state) : Z :=
  if negb (clients_mutex m) then 0
  else Z.of_nat (count_connected (clients (table m))).

(** [socket_client_info_t]; [address] is what [inet6_ntoa_r] prints. *)
Record socket_client_info_t := {
  info_connected : bool;
  info_address : string;
  info_port : Z;
  info_bytes_sent : Z;
  info_bytes_received : Z;
  info_connect_time : Z
}.

(** [ntohs] on the little-endian target: the two bytes swapped. *)
Definition ntohs (x : Z) : Z := (x mod 256) * 256 + (x / 256) mod 256.

(** [socket_server_get_client_info(index, info)]; [info_given] is
    [info != NULL]; the second component is what was stored in [*info]. *)
Definition socket_server_get_client_info (inet6_ntoa_r : Z -> string)
    (index : Z) (info_given : bool) (m : module_state)
    : esp_err_more * option socket_client_info_t :=
  if negb info_given || (index <? 0) || (Z.of_nat MAX_CLIENTS <=? index)
     || negb (clients_mutex m)
  then (ESP_ERR_INVALID_ARG, None)
  else
    match clients (table m) !! Z.to_nat index with
    | Some c =>
        if connected c then
          (Err ESP_OK,
           Some {| info_connected := true;
                   info_address := inet6_ntoa_r (sin6_addr (addr c));
                   info_port := ntohs (sin6_port (addr c));
                   info_bytes_sent := bytes_sent c;
                   info_bytes_received := bytes_received c;
                   info_connect_time := connect_time c |})
        else (ESP_ERR_NOT_FOUND, None)
    | None => (ESP_ERR_NOT_FOUND, None)
    end.

End SocketServer.

(** * The socket client *)
Module SocketClient.

Definition RECONNECT_DELAY_MS : Z := 5000.
Definition MAX_RECONNECT_DELAY_MS : Z := 60000.

Record socket_client_stats_t := {
  start_time : Z;
  last_connect_time : Z;
  last_disconnect_time : Z;
  connection_count : Z;     (* uint32_t *)
  bytes_sent : Z;           (* uint32_t *)
  bytes_received : Z        (* uint32_t *)
}.

(** The file's statics. *)
Record client := {
  client_running : bool;
  client_socket : Z;
  client_stats : socket_client_stats_t;
  connected : bool
}.

Definition set_last_connect_time (t : Z) (st : socket_client_stats_t) :=
  {| start_time := start_time st; last_connect_time := t;
     last_disconnect_time := last_disconnect_time st;
     connection_count := connection_count st; bytes_sent := bytes_sent st;
     bytes_received := bytes_received st |}.
Definition set_last_disconnect_time (t : Z) (st : socket_client_stats_t) :=
  {| start_time := start_time st; last_connect_time := last_connect_time st;
     last_disconnect_time := t;
     connection_count := connection_count st; bytes_sent := bytes_sent st;
     bytes_received := bytes_received st |}.
Definition set_connection_count (n : Z) (st : socket_client_stats_t) :=
  {| start_time := start_time st; last_connect_time := last_connect_time st;
     last_disconnect_time := last_disconnect_time st;
     connection_count := n; bytes_sent := bytes_sent st;
     bytes_received := bytes_received st |}.
Definition set_bytes_sent (n : Z) (st : socket_client_stats_t) :=
  {| start_time := start_time st; last_connect_time := last_connect_time st;
     last_disconnect_time := last_disconnect_time st;
     connection_count := connection_count st; bytes_sent := n;
     bytes_received := bytes_received st |}.

Definition set_client_running (b : bool) (c : client) : client :=
  {| client_running := b; client_socket := client_socket c;
     client_stats := client_stats c; connected := connected c |}.
Definition set_client_socket (fd : Z) (c : client) : client :=
  {| client_running := client_running c; client_socket := fd;
     client_stats := client_stats c; connected := connected c |}.
Definition set_client_stats (st : socket_client_stats_t) (c : client) : client :=
  {| client_running := client_running c; client_socket := client_socket c;
     client_stats := st; connected := connected c |}.
Definition set_connected (b : bool) (c : client) : client :=
  {| client_running := client_running c; client_socket := client_socket c;
     client_stats := client_stats c; connected := b |}.

Inductive event : Type :=
| EvSend (fd : Z) (data : list Byte.byte)     (* send(fd, data, length, 0) *)
| EvClose (fd : Z)
| EvStatusLed (rgba : Z)                      (* status_led_add(rgba, STATUS_LED_STATIC, 0, 0, 0) *)
| EvWifiPollDelay                             (* vTaskDelay(1000 / portTICK_PERIOD_MS) *)
| EvBackoffDelay (ms : Z).                    (* vTaskDelay(reconnect_delay / portTICK_PERIOD_MS) *)

Definition body (A : Type) : Type := prog client event A.

(** *** socket_client_disconnect; [now] is [time(NULL)] *)
Definition socket_client_disconnect (now : Z) : body unit :=
  c <- get ;;
  when_ (0 <=? client_socket c)
        (emit (EvClose (client_socket c)) ;;; modify (set_client_socket (-1))) ;;;
  modify (set_connected false) ;;;
  modify (fun c => set_client_stats (set_last_disconnect_time now (client_stats c)) c) ;;;
  emit (EvStatusLed 0xFF000000).

(** *** socket_client_send_data; [send_result] is what [send] answers *)
Definition socket_client_send_data (send_result now : Z) (data : list Byte.byte)
    (c : client) : esp_err_t * client * list event :=
  if negb (connected c) || (client_socket c <? 0) then (ESP_ERR_INVALID_STATE, c, [])
  else
    let sent := send_result in
    if sent <? 0 then
      let '(c', t) := run (socket_client_disconnect now) c in
      (ESP_FAIL, c', EvSend (client_socket c) data :: t)
    else
      (ESP_OK,
       set_client_stats (set_bytes_sent (wrap32 (bytes_sent (client_stats c) + sent))
                                        (client_stats c)) c,
       [EvSend (client_socket c) data]).

Definition socket_client_send_uart_data := socket_client_send_data.

(** *** socket_client_connect *)

(** What one turn of the connect loop meets. *)
Inductive attempt : Type :=
| ResolveFails                          (* gethostbyname returns NULL *)
| SocketFails (fd : Z)                  (* socket() returns fd < 0 *)
| ConnectFails (fd : Z)                 (* connect() returns non-zero *)
| Connects (fd : Z) (now : Z) (greeting_sent newline_sent : Z).

(** [running]: the value of [client_running] at the loop test; another
    task clears it in [socket_client_deinit]. *)
Record turn := {
  running : bool;
  outcome : attempt
}.

(** One poll of the wait for WiFi: the new status and [client_running]. *)
Record wifi_poll := {
  wifi_connected : bool;
  running_after_poll : bool
}.

(** How the call stands once the listed observations are used up. *)
Inductive connect_result : Type :=
| Returned (err : esp_err_t) (reconnect_delay : Z) (c : client) (t : list event)
| StillTrying (reconnect_delay : Z) (c : client) (t : list event).

(** The exponential backoff of the loop. *)
Definition next_delay (reconnect_delay : Z) : Z :=
  if reconnect_delay * 2 >? MAX_RECONNECT_DELAY_MS
  then MAX_RECONNECT_DELAY_MS
  else reconnect_delay * 2.

Definition newline_bytes : list Byte.byte := [Byte.x0d; Byte.x0a].

(** The tail of a successful turn, from [connected = true] on. *)
Definition connect_success (connect_msg : option (list Byte.byte))
    (fd now greeting_sent newline_sent : Z) (c : client) : client * list event :=
  let c := set_client_socket fd c in
  let c := set_connected true c in
  let c := set_client_stats
             (set_last_connect_time now
                (set_connection_count (wrap32 (connection_count (client_stats c) + 1))
                                      (client_stats c))) c in
  let '(c, t) :=
    match connect_msg with
    | Some (b :: msg) =>
        let '(_, c1, t1) := socket_client_send_data greeting_sent now (b :: msg) c in
        let '(_, c2, t2) := socket_client_send_data newline_sent now newline_bytes c1 in
        (c2, t1 ++ t2)
    | _ => (c, [])
    end in
  (c, t ++ [EvStatusLed 0x00FF0000]).

(** [while (client_running && !connected) { ... }] *)
Fixpoint connect_loop (connect_msg : option (list Byte.byte)) (turns : list turn)
    (reconnect_delay : Z) (c : client) (t : list event) : connect_result :=
  match turns with
  | [] => StillTrying reconnect_delay c t
  | tn :: rest =>
      let c := set_client_running (running tn) c in
      if client_running c && negb (connected c) then
        match outcome tn with
        | ResolveFails =>
            connect_loop connect_msg rest (next_delay reconnect_delay) c
                         (t ++ [EvBackoffDelay reconnect_delay])
        | SocketFails fd =>
            connect_loop connect_msg rest reconnect_delay (set_client_socket fd c)
                         (t ++ [EvBackoffDelay reconnect_delay])
        | ConnectFails fd =>
            connect_loop connect_msg rest (next_delay reconnect_delay)
                         (set_client_socket (-1) c)
                         (t ++ [EvClose fd; EvBackoffDelay reconnect_delay])
        | Connects fd now greeting_sent newline_sent =>
            let '(c', t') := connect_success connect_msg fd now greeting_sent newline_sent c in
            Returned ESP_OK RECONNECT_DELAY_MS c' (t ++ t')
        end
      else Returned ESP_FAIL reconnect_delay c t
  end.

(** [while (!wifi_status.connected) { ... }] *)
Inductive wifi_result : Type :=
| WifiUp (c : client) (t : list event)        (* the loop ended, WiFi is connected *)
| WifiStopped (c : client) (t : list event)   (* return ESP_FAIL: client_running is false *)
| WifiWaiting (c : client) (t : list event).  (* the polls are used up *)

Fixpoint wifi_wait (polls : list wifi_poll) (c : client) (t : list event) : wifi_result :=
  match polls with
  | [] => WifiWaiting c t
  | p :: rest =>
      let c := set_client_running (running_after_poll p) c in
      let t := t ++ [EvWifiPollDelay] in
      if negb (client_running c) then WifiStopped c t
      else if wifi_connected p then WifiUp c t
      else wifi_wait rest c t
  end.

Definition socket_client_connect (connect_msg : option (list Byte.byte))
    (wifi_now : bool) (polls : list wifi_poll) (turns : list turn) (c : client)
    : connect_result :=
  let reconnect_delay := RECONNECT_DELAY_MS in
  match (if wifi_now then WifiUp c [] else wifi_wait polls c []) with
  | WifiUp c' t => connect_loop connect_msg turns reconnect_delay c' t
  | WifiStopped c' t => Returned ESP_FAIL reconnect_delay c' t
  | WifiWaiting c' t => StillTrying reconnect_delay c' t
  end.

(** The delays the backoff used, in order. *)
Definition backoff_delays (t : list event) : list Z :=
  omap (fun e => match e with EvBackoffDelay ms => Some ms | _ => None end) t.

(** Never smaller than an earlier one. *)
Definition non_decreasing (l : list Z) : Prop :=
  forall (i j : nat) (x y : Z), (i <= j)%nat -> l !! i = Some x -> l !! j = Some y -> x <= y.

Definition result_trace (r : connect_result) : list event :=
  match r with
  | Returned _ _ _ t => t
  | StillTrying _ _ t => t
  end.

(** *** socket_client_task: one turn of the loop of a connected client *)

Definition UART_NUM_0 : Z := 0.

Inductive task_event : Type :=
| Net (e : event)
| EvUartWrite (port : Z) (data : list Byte.byte)   (* uart_write_bytes(port, data, len) *)
| EvTurnDelay.                                     (* vTaskDelay(10 / portTICK_PERIOD_MS) *)

Definition set_bytes_received (n : Z) (st : socket_client_stats_t) :=
  {| start_time := start_time st; last_connect_time := last_connect_time st;
     last_disconnect_time := last_disconnect_time st;
     connection_count := connection_count st; bytes_sent := bytes_sent st;
     bytes_received := n |}.

(** [if (uart_data_len > 0) socket_client_send_data(buffer, uart_data_len);]
    with [uart_data] what [uart_read_bytes] delivered (nothing: the empty
    list). *)
Definition send_uart_data (uart_data : list Byte.byte) (send_result now : Z) (c : client)
    : client * list task_event :=
  match uart_data with
  | [] => (c, [])
  | _ :: _ =>
      let '(_, c', t) := socket_client_send_data send_result now uart_data c in
      (c', Net <$> t)
  end.

(** [recv_result], [would_block], [recv_data]: what [recv] answers, and
    whether [errno] is EAGAIN or EWOULDBLOCK when it fails. *)
Definition socket_client_task_turn (recv_result : Z) (would_block : bool)
    (recv_data uart_data : list Byte.byte) (send_result now : Z) (c : client)
    : client * list task_event :=
  if recv_result <? 0 then
    if would_block
    then send_uart_data uart_data send_result now c          (* timeout *)
    else let '(c', t) := run (socket_client_disconnect now) c in (c', Net <$> t)
  else if recv_result =? 0 then
    let '(c', t) := run (socket_client_disconnect now) c in (c', Net <$> t)
  else
    let c1 := set_client_stats
                (set_bytes_received (wrap32 (bytes_received (client_stats c) + recv_result))
                                    (client_stats c)) c in
    let '(c2, t) := send_uart_data uart_data send_result now c1 in
    (c2, EvUartWrite UART_NUM_0 (take (Z.to_nat recv_result) recv_data) :: t ++ [EvTurnDelay]).

(** *** socket_client_init

    [enabled], [host], [port]: the configuration; [task_created]: whether
    [xTaskCreate] answered pdPASS; [now]: [time(NULL)]. *)
Definition zero_stats : socket_client_stats_t :=
  {| start_time := 0; last_connect_time := 0; last_disconnect_time := 0;
     connection_count := 0; bytes_sent := 0; bytes_received := 0 |}.

Definition set_start_time (t : Z) (st : socket_client_stats_t) :=
  {| start_time := t; last_connect_time := last_connect_time st;
     last_disconnect_time := last_disconnect_time st;
     connection_count := connection_count st; bytes_sent := bytes_sent st;
     bytes_received := bytes_received st |}.

Definition socket_client_init (enabled : bool) (host : string) (port : Z)
    (task_created : bool) (now : Z) (c : client) : esp_err_more * client :=
  if client_running c then (Err ESP_ERR_INVALID_STATE, c)
  else if negb enabled then (Err ESP_OK, c)
  else if (String.length host =? 0)%nat then (ESP_ERR_INVALID_ARG, c)
  else if (port <=? 0) || (65535 <? port) then (ESP_ERR_INVALID_ARG, c)
  else
    let c1 := set_client_stats (set_start_time now zero_stats) c in
    if task_created
    then (Err ESP_OK, set_client_running true c1)
    else (ESP_ERR_NO_MEM, set_client_running false c1).

(** A turn of the connect loop that fails to resolve or to connect while
    the client is running. *)
Definition fails_to_connect (tn : turn) : bool :=
  running tn &&
  match outcome tn with
  | ResolveFails | ConnectFails _ => true
  | _ => false
  end.

(** The delay before the attempt that follows [k] such failures. *)
Definition delay_after (k : nat) : Z :=
  Z.min (RECONNECT_DELAY_MS * 2 ^ Z.of_nat k) MAX_RECONNECT_DELAY_MS.

(** The handles a trace closed, in order. *)
Definition closed_handles (t : list event) : list Z :=
  omap (fun e => match e with EvClose fd => Some fd | _ => None end) t.

End SocketClient.

(** * The SD card logger *)
Module SdLogger.

Definition MOUNT_POINT : string := "/sdcard".

(** The file's statics; a [FILE *] is a handle number. *)
Record sd_logger := {
  log_file : option Z;
  current_date : string;
  logging_enabled : bool
}.

(** What the C library answers during one call. *)
Record env := {
  new_date : string;              (* strftime(new_date, ..., "%Y%m%d", ...) *)
  fopen_result : option Z;        (* fopen(filename, "a") *)
  fwrite_result : Z               (* fwrite(data, 1, len, log_file) *)
}.

Inductive event : Type :=
| EvFclose (f : Z)
| EvFopen (filename : string)
| EvFwrite (f : Z) (data : list Byte.byte) (written : Z)
| EvFflush (f : Z).

Definition set_log_file (f : option Z) (s : sd_logger) : sd_logger :=
  {| log_file := f; current_date := current_date s; logging_enabled := logging_enabled s |}.
Definition set_current_date (d : string) (s : sd_logger) : sd_logger :=
  {| log_file := log_file s; current_date := d; logging_enabled := logging_enabled s |}.

(** *** sd_logger_check_date *)
Definition sd_logger_check_date (e : env) (s : sd_logger) : esp_err_t * sd_logger * list event :=
  if negb (logging_enabled s) then (ESP_OK, s, [])
  else if bool_decide (current_date s = new_date e) then (ESP_OK, s, [])
  else
    let closing := match log_file s with Some f => [EvFclose f] | None => [] end in
    let filename := MOUNT_POINT +:+ "/logs/" +:+ new_date e +:+ ".rtcm" in
    let s' := set_log_file (fopen_result e) (set_current_date (new_date e) s) in
    (match fopen_result e with Some _ => ESP_OK | None => ESP_FAIL end,
     s', closing ++ [EvFopen filename]).

(** *** sd_logger_write *)
Definition sd_logger_write (e : env) (data : list Byte.byte) (s : sd_logger)
    : esp_err_t * sd_logger * list event :=
  if negb (logging_enabled s) || negb (bool_decide (is_Some (log_file s)))
  then (ESP_OK, s, [])
  else
    let '(_, s1, t1) := sd_logger_check_date e s in
    match log_file s1 with
    | Some f =>
        let len := Z.of_nat (length data) in
        let written := fwrite_result e in
        if negb (written =? len)
        then (ESP_FAIL, s1, t1 ++ [EvFwrite f data written])
        else (ESP_OK, s1, t1 ++ [EvFwrite f data written; EvFflush f])
    | None => (ESP_FAIL, s1, t1)
    end.

(** The bytes a trace put into a file. *)
Definition bytes_written (t : list event) : Z :=
  foldr (fun e acc => match e with EvFwrite _ _ w => w + acc | _ => acc end) 0 t.

(** *** sd_logger_enable, sd_logger_is_enabled *)
Definition set_logging_enabled (b : bool) (s : sd_logger) : sd_logger :=
  {| log_file := log_file s; current_date := current_date s; logging_enabled := b |}.

Definition sd_logger_enable (enable : bool) (e : env) (s : sd_logger)
    : esp_err_t * sd_logger * list event :=
  let s1 := set_logging_enabled enable s in
  if enable then sd_logger_check_date e s1
  else
    match log_file s1 with
    | Some f => (ESP_OK, set_log_file None s1, [EvFclose f])
    | None => (ESP_OK, s1, [])
    end.

Definition sd_logger_is_enabled (s : sd_logger) : bool := logging_enabled s.

(** The name of the log file of a day. *)
Definition log_filename (date : string) : string :=
  MOUNT_POINT +:+ "/logs/" +:+ date +:+ ".rtcm".

End SdLogger.

(** * Concrete inputs

    Sample values for what the model takes as parameters, and sample
    states, used where a statement is shown at a concrete input. *)
Module Samples.
Import Uplink.

(** A sample content of the missing headers: a ten-second keep-alive
    threshold, a status line taken after a four-character protocol tag. *)
Definition sample_h : ntrip_h :=
  {| NTRIP_KEEP_ALIVE_THRESHOLD := 10000;
     NTRIP_SERVER_NAME := "ESP32-XBee";
     CONNECT_SOCKET_ERROR_RESOLVE := -2;
     CONNECT_SOCKET_ERROR_CONNECT := -3;
     extract_http_header := fun buffer _ =>
       if String.prefix "ICY " buffer
       then Some (String.substring 4 (String.length buffer - 4) buffer)
       else None;
     ntrip_response_ok := fun status => String.eqb status "200 OK";
     app_version := "v1.0.0";
     tag := "SRV" |}.

(** The endpoint of the end-to-end scenario. *)
Definition sample_attempt (answer : string) : attempt_env :=
  {| cfg_port := 2101;
     cfg_host := Some "caster.example.com";
     cfg_password := Some "secret";
     cfg_mountpoint := Some "TEST";
     connect_result := 5;
     request_write_result := 59;
     read_result := Z.of_nat (String.length answer);
     response := answer |}.

Fixpoint repeat_char (c : ascii) (n : nat) : string :=
  match n with
  | O => EmptyString
  | S n' => String c (repeat_char c n')
  end.

(** The same endpoint with a credential of 600 characters. *)
Definition long_password : string := repeat_char "x"%char 600.

Definition long_attempt : attempt_env :=
  {| cfg_port := 2101;
     cfg_host := Some "caster.example.com";
     cfg_password := Some long_password;
     cfg_mountpoint := Some "TEST";
     connect_result := 5;
     request_write_result := 511;
     read_result := 10;
     response := "ICY 200 OK" |}.

(** An uplink whose worker is about to connect. *)
Definition connecting : uplink :=
  {| event_bits := DATA_READY_BIT; sock := -1; sock_mutex_taken := false;
     data_keep_alive := 0; status_led := Some false;
     server_task := Connecting; sleep_task_suspended := true |}.

(** An uplink streaming on the socket [fd]. *)
Definition streaming_on (fd : Z) : uplink :=
  {| event_bits := Z.lor CASTER_READY_BIT DATA_READY_BIT; sock := fd;
     sock_mutex_taken := false; data_keep_alive := 0; status_led := Some true;
     server_task := Streaming "caster.example.com" 2101 "TEST";
     sleep_task_suspended := false |}.

(** The socket 7 is broken, every other write takes the whole chunk. *)
Definition write_7_fails (fd : Z) (data : list Byte.byte) : Z :=
  if fd =? 7 then -1 else Z.of_nat (length data).

Definition sample_chunk : list Byte.byte := [Byte.xd3; Byte.x00; Byte.x13].

End Samples.

Module ServerSamples.
Import SocketServer.

Definition peer (host port : Z) : sockaddr_in6 :=
  {| sin6_family := 10; sin6_port := port; sin6_flowinfo := 0;
     sin6_addr := host; sin6_scope_id := 0 |}.

(** A slot after [memset(clients, 0, sizeof(clients))]. *)
Definition zero_slot : socket_client_t :=
  {| socket := 0; addr := {| sin6_family := 0; sin6_port := 0; sin6_flowinfo := 0;
                             sin6_addr := 0; sin6_scope_id := 0 |};
     connected := false; bytes_sent := 0; bytes_received := 0; connect_time := 0 |}.

(** The server just after [socket_server_init]: listening on the handles 3
    (stream) and 4 (datagram), no peer. *)
Definition fresh_server : server :=
  {| clients := replicate MAX_CLIENTS zero_slot;
     tcp_server_socket := 3; udp_server_socket := 4 |}.

(** Ten stream peers on the handles 10..19. *)
Definition full_server : server :=
  {| clients := (fun k => claimed_slot (10 + Z.of_nat k) (peer 1 (5000 + Z.of_nat k)) 100)
                  <$> seq 0 MAX_CLIENTS;
     tcp_server_socket := 3; udp_server_socket := 4 |}.

(** Two datagram senders and three datagrams: two from the first sender,
    then one from the second. *)
Definition sender_S : sockaddr_in6 := peer 0xC0A80001 40000.
Definition sender_T : sockaddr_in6 := peer 0xC0A80002 40000.

Definition three_datagrams : list datagram :=
  [ {| dg_from := sender_S; dg_payload := [Byte.x01; Byte.x02] |};
    {| dg_from := sender_S; dg_payload := [Byte.x03; Byte.x04; Byte.x05] |};
    {| dg_from := sender_T; dg_payload := [Byte.x06] |} ].

(** The send on slot 2 fails, every other send takes 64 bytes. *)
Definition slot_2_fails (i : nat) : Z := if (i =? 2)%nat then -1 else 64.

(** One datagram from an address that no slot of [full_server] holds. *)
Definition stranger : sockaddr_in6 := peer 9 6000.

Definition lone_datagram : datagram :=
  {| dg_from := stranger; dg_payload := [Byte.x01; Byte.x02] |}.

(** A turn of the task in which [select] reports the datagram socket and
    nothing else, with three bytes waiting on the UART. *)
Definition datagram_turn : turn_env :=
  {| select_result := 1;
     fd_isset := fun fd => fd =? 4;
     accept_result := -1;
     accept_addr := stranger;
     time_now := 300;
     recv_result := fun _ => 0;
     recv_data := fun _ => [];
     uart_data := [Byte.xd3; Byte.x00; Byte.x13];
     send_result := fun _ => 3 |}.

End ServerSamples.

(** * Theorems *)

(** ** The uplinks *)
Section UplinkFacts.
Import Uplink.

Ltac unfold_task :=
  unfold run, ntrip_server_uart_handler, ntrip_server_sleep_task_iter,
    ntrip_server_loop_head, ntrip_server_disconnected, ntrip_server_error,
    xEventGroupSetBits, xEventGroupClearBits, set_led_active, ERROR_ACTION,
    destroy_socket, vTaskResume_server_task, when_, prog_bind, get, modify, emit,
    prog_ret, leave.

Ltac list_mem := rewrite ?elem_of_app, ?elem_of_cons, ?elem_of_nil; naive_solver.

Lemma land_lor_keeps (b x m : Z) :
  (Z.land b m =? 0) = false -> (Z.land (Z.lor b x) m =? 0) = false.
Proof.
  rewrite !Z.eqb_neq, Z.land_lor_distr_l, Z.lor_eq_0_iff. tauto.
Qed.

Ltac bit_kept := apply negb_true_iff; repeat apply land_lor_keeps; done.

Lemma streaming_inv (u : uplink) :
  streaming u = true ->
  (Z.land (event_bits u) CASTER_READY_BIT =? 0) = false /\
  (0 <=? sock u) = true /\
  sock_mutex_taken u = false /\
  exists h p m, server_task u = Streaming h p m.
Proof.
  unfold streaming, bit_set. intros Hs.
  repeat (apply andb_prop in Hs; destruct Hs as [Hs ?]).
  apply negb_true_iff in Hs. split; [done|]. split; [done|].
  split; [by apply negb_true_iff|].
  destruct (server_task u); try discriminate; eauto.
Qed.

(** The handler on a streaming uplink whose write fails. *)
Lemma handler_write_fails (w : Z -> list Byte.byte -> Z) (c : list Byte.byte) (u : uplink) :
  streaming u = true -> w (sock u) c < 0 ->
  let '(u', t) := run (ntrip_server_uart_handler w c) u in
  sock u' = -1 /\ EvClose (sock u) ∈ t /\ EvResumeServerTask ∈ t /\
  EvWrite (sock u) c ∈ t /\
  bit_set (event_bits u') CASTER_READY_BIT = true /\
  exists h p m, server_task u = Streaming h p m /\ server_task u' = Disconnecting h p m.
Proof.
  intros (Hc & Hfd & Hm & h & p & m & Hst)%streaming_inv Hw.
  apply Z.ltb_lt in Hw.
  destruct u as [bits fd mtx ka led st slp]; simpl in *; subst.
  unfold_task; cbn. rewrite Hc.
  destruct (Z.land bits DATA_READY_BIT =? 0) eqn:E2;
    destruct (Z.land bits DATA_SENT_BIT =? 0) eqn:E4;
    cbn; rewrite ?Hfd; cbn; rewrite ?Hw; cbn; rewrite ?Hfd; cbn;
    unfold bit_set; repeat split; try list_mem; try bit_kept; eauto 6.
Qed.

(** The handler on a streaming uplink whose write goes through. *)
Lemma handler_write_succeeds (w : Z -> list Byte.byte -> Z) (c : list Byte.byte) (u : uplink) :
  streaming u = true -> 0 <= w (sock u) c ->
  let '(u', t) := run (ntrip_server_uart_handler w c) u in
  streaming u' = true /\ sock u' = sock u /\ server_task u' = server_task u /\
  EvWrite (sock u) c ∈ t /\
  (forall fd, EvClose fd ∉ t) /\ EvResumeServerTask ∉ t.
Proof.
  intros Hs Hw. pose proof Hs as (Hc & Hfd & Hm & h & p & m & Hst)%streaming_inv.
  assert ((w (sock u) c <? 0) = false) as Hw' by (apply Z.ltb_ge; lia).
  destruct u as [bits fd mtx ka led st slp]; simpl in *; subst.
  unfold_task; cbn. rewrite Hc.
  destruct (Z.land bits DATA_READY_BIT =? 0) eqn:E2;
    destruct (Z.land bits DATA_SENT_BIT =? 0) eqn:E4;
    cbn; rewrite ?Hfd; cbn; rewrite ?Hw'; cbn;
    unfold streaming, bit_set; cbn; rewrite ?Hfd, ?andb_true_r;
    (repeat split; try done; try bit_kept; try list_mem; intros; list_mem).
Qed.

(** What the dispatch leaves at a position is what that uplink's own
    handler leaves, whatever happened to the others. *)
Lemma dispatch_lookup (w : Z -> list Byte.byte -> Z) (c : list Byte.byte)
    (eps : list uplink) (n k : nat) :
  (uart_dispatch_from n w c eps).1 !! k =
  (fun u => (run (ntrip_server_uart_handler w c) u).1) <$> eps !! k.
Proof.
  revert n k. induction eps as [|u rest IH]; intros n k; [by destruct k|].
  cbn [uart_dispatch_from].
  destruct (run (ntrip_server_uart_handler w c) u) as [u' t] eqn:Hu.
  specialize (IH (S n)).
  destruct (uart_dispatch_from (S n) w c rest) as [rest' t'] eqn:Hr.
  destruct k as [|k]; cbn; [by rewrite Hu|]. apply IH.
Qed.

(** The events tagged with a position are the events of that uplink's own
    handler. *)
Lemma dispatch_trace (w : Z -> list Byte.byte -> Z) (c : list Byte.byte)
    (eps : list uplink) (n m : nat) (ev : event) :
  (m, ev) ∈ (uart_dispatch_from n w c eps).2 <->
  exists k u, m = (n + k)%nat /\ eps !! k = Some u /\
              ev ∈ (run (ntrip_server_uart_handler w c) u).2.
Proof.
  revert n. induction eps as [|u rest IH]; intros n.
  - cbn. rewrite elem_of_nil. split; [done|]. intros (k & u & _ & Hk & _). done.
  - cbn [uart_dispatch_from].
    destruct (run (ntrip_server_uart_handler w c) u) as [u' t] eqn:Hu.
    specialize (IH (S n)).
    destruct (uart_dispatch_from (S n) w c rest) as [rest' t'] eqn:Hr.
    cbn in *. rewrite elem_of_app, IH, list_elem_of_fmap. split.
    + intros [(y & Hy & Hin) | (k & v & -> & Hk & Hin)].
      * inversion Hy; subst. exists 0%nat, u. rewrite Hu. cbn.
        split; [lia|done].
      * exists (S k), v. split; [lia|done].
    + intros (k & v & -> & Hk & Hin). destruct k as [|k]; cbn in Hk.
      * left. inversion Hk; subst. rewrite Hu in Hin. exists ev.
        split; [f_equal; lia|done].
      * right. exists k, v. split; [lia|done].
Qed.

(** C1. Two uplinks A and B registered with the source dispatch, both
    streaming; the write on A's socket fails during the dispatch of a
    chunk.  Then A's socket is torn down and A's worker is resumed, while B
    ends exactly as its own handler leaves it: caster_ready still set, the
    chunk written to B's socket, and, when that write goes through, B
    still streaming on the same socket, with no close and no resume
    issued for B. *)
Theorem uplink_write_failure_is_isolated
    (write_result : Z -> list Byte.byte -> Z) (chunk : list Byte.byte)
    (eps : list uplink) (i j : nat) (A B : uplink) :
  eps !! i = Some A -> eps !! j = Some B -> i <> j ->
  streaming A = true -> streaming B = true ->
  write_result (sock A) chunk < 0 ->
  let eps' := (uart_dispatch write_result chunk eps).1 in
  let t := (uart_dispatch write_result chunk eps).2 in
  exists A' B',
    eps' !! i = Some A' /\ eps' !! j = Some B' /\
    (* A is torn down and its worker woken *)
    sock A' = -1 /\ (i, EvClose (sock A)) ∈ t /\ (i, EvResumeServerTask) ∈ t /\
    (exists h p m, server_task A = Streaming h p m /\ server_task A' = Disconnecting h p m) /\
    (* B does not see A's failure *)
    B' = (run (ntrip_server_uart_handler write_result chunk) B).1 /\
    bit_set (event_bits B') CASTER_READY_BIT = true /\
    (j, EvWrite (sock B) chunk) ∈ t /\
    (0 <= write_result (sock B) chunk ->
       streaming B' = true /\ sock B' = sock B /\ server_task B' = server_task B /\
       (forall fd, (j, EvClose fd) ∉ t) /\ (j, EvResumeServerTask) ∉ t).
Proof.
  intros HA HB Hij SA SB Hfail. cbn zeta. unfold uart_dispatch.
  exists (run (ntrip_server_uart_handler write_result chunk) A).1,
         (run (ntrip_server_uart_handler write_result chunk) B).1.
  rewrite !dispatch_lookup, HA, HB. cbn.
  pose proof (handler_write_fails write_result chunk A SA Hfail) as FA.
  destruct (run (ntrip_server_uart_handler write_result chunk) A) as [A' tA] eqn:EA.
  destruct FA as (FA1 & FA2 & FA3 & _ & _ & FA4).
  assert (forall ev, ev ∈ tA -> (i, ev) ∈ (uart_dispatch_from 0 write_result chunk eps).2) as InA.
  { intros ev Hev. apply dispatch_trace. exists i, A. rewrite EA. done. }
  assert (forall ev, (j, ev) ∈ (uart_dispatch_from 0 write_result chunk eps).2 <->
                     ev ∈ (run (ntrip_server_uart_handler write_result chunk) B).2) as InB.
  { intros ev. rewrite dispatch_trace. split.
    - intros (k & v & Hk & Hv & Hin). cbn in Hk. subst k. congruence.
    - intros Hin. exists j, B. done. }
  cbn. repeat split; try done; try (by apply InA).
  - destruct (Z.lt_ge_cases (write_result (sock B) chunk) 0) as [Hlt|Hge].
    + pose proof (handler_write_fails write_result chunk B SB Hlt) as FB.
      destruct (run _ B) as [B' tB]. cbn. tauto.
    + pose proof (handler_write_succeeds write_result chunk B SB Hge) as FB.
      destruct (run _ B) as [B' tB]. cbn.
      destruct FB as (FB & _). apply streaming_inv in FB as (Hb & _).
      unfold bit_set. by rewrite Hb.
  - apply InB.
    destruct (Z.lt_ge_cases (write_result (sock B) chunk) 0) as [Hlt|Hge].
    + pose proof (handler_write_fails write_result chunk B SB Hlt) as FB.
      destruct (run _ B) as [B' tB]. cbn. tauto.
    + pose proof (handler_write_succeeds write_result chunk B SB Hge) as FB.
      destruct (run _ B) as [B' tB]. cbn. tauto.
  - pose proof (handler_write_succeeds write_result chunk B SB H) as FB.
    destruct (run _ B) as [B' tB]. cbn. tauto.
  - pose proof (handler_write_succeeds write_result chunk B SB H) as FB.
    destruct (run _ B) as [B' tB]. cbn. tauto.
  - pose proof (handler_write_succeeds write_result chunk B SB H) as FB.
    destruct (run _ B) as [B' tB]. cbn. tauto.
  - intros fd. rewrite InB.
    pose proof (handler_write_succeeds write_result chunk B SB H) as FB.
    destruct (run _ B) as [B' tB]. cbn. destruct FB as (_ & _ & _ & _ & FB & _). apply FB.
  - rewrite InB.
    pose proof (handler_write_succeeds write_result chunk B SB H) as FB.
    destruct (run _ B) as [B' tB]. cbn. tauto.
Qed.

(** C3. When the first response after the request carries no extractable
    status line, or a status that is not a recognised OK value, the attempt
    closes the socket and the worker is back at the top of its loop, where
    the next thing it does is the retry delay; during the attempt no event
    bit was set (so caster_ready was not), and the retry state was not
    reset. *)
Theorem handshake_rejection_tears_down
    (h : ntrip_h) (e : attempt_env) (u : uplink) :
  reaches_response h e -> response_rejected h e ->
  let u' := (ntrip_server_attempt h e u).1 in
  let t := (ntrip_server_attempt h e u).2 in
  sock u' = -1 /\ EvClose (connect_result e) ∈ t /\
  (forall bits, EvSetBits bits ∉ t) /\ event_bits u' = event_bits u /\
  (EvRetryReset ∉ t) /\
  server_task u' = AtLoopHead /\
  (forall e', exists t', (ntrip_server_task_step h e' u').2 = EvRetryDelay :: t').
Proof.
  intros ([host Hh] & [pw Hp] & [mp Hm] & Hfd & Hr & Hc & Hw) Hrej. cbn zeta.
  apply Z.leb_le in Hfd. apply Z.eqb_neq in Hr, Hc.
  assert ((request_write_result e <? 0) = false) as Hw' by (apply Z.ltb_ge; lia).
  assert (forall v : uplink, server_task v = AtLoopHead ->
            forall e', exists t', (ntrip_server_task_step h e' v).2 = EvRetryDelay :: t') as Hnext.
  { intros v Hv e'. unfold ntrip_server_task_step. rewrite Hv.
    unfold_task. destruct (Z.land (event_bits v) DATA_READY_BIT =? 0); cbn; eauto. }
  cut (let u' := (ntrip_server_attempt h e u).1 in
       let t := (ntrip_server_attempt h e u).2 in
       sock u' = -1 /\ EvClose (connect_result e) ∈ t /\
       (forall bits, EvSetBits bits ∉ t) /\ event_bits u' = event_bits u /\
       (EvRetryReset ∉ t) /\ server_task u' = AtLoopHead).
  { cbn zeta. intros (? & ? & ? & ? & ? & Hst). repeat split; try done. by apply Hnext. }
  clear Hnext. cbn zeta.
  unfold ntrip_server_attempt, ntrip_server_connect. rewrite Hh, Hp, Hm.
  destruct u as [bits fd mtx ka led st slp].
  unfold_task; cbn. rewrite Hr, Hc, Hw'; cbn.
  destruct (read_result e <=? 0) eqn:Hlen; cbn; rewrite ?Hfd; cbn.
  - repeat split; try list_mem; intros; list_mem.
  - destruct Hrej as [Hrej | [Hrej | (status & Hrej & Hok)]].
    + apply Z.leb_gt in Hlen. lia.
    + rewrite Hrej; cbn. rewrite ?Hfd; cbn.
      repeat split; try list_mem; intros; list_mem.
    + rewrite Hrej; cbn. rewrite Hok; cbn. rewrite ?Hfd; cbn.
      repeat split; try list_mem; intros; list_mem.
Qed.

Lemma uplink_write_failure_is_isolated_witness :
  let eps := [Samples.streaming_on 7; Samples.streaming_on 8] in
  let eps' := (uart_dispatch Samples.write_7_fails Samples.sample_chunk eps).1 in
  exists A' B', eps' !! 0%nat = Some A' /\ eps' !! 1%nat = Some B' /\
    sock A' = -1 /\ streaming B' = true /\ sock B' = 8.
Proof.
  destruct (uplink_write_failure_is_isolated Samples.write_7_fails Samples.sample_chunk
              [Samples.streaming_on 7; Samples.streaming_on 8] 0 1
              (Samples.streaming_on 7) (Samples.streaming_on 8))
    as (A' & B' & HA & HB & Hs & _ & _ & _ & _ & _ & _ & Hok);
    [reflexivity | reflexivity | lia | reflexivity | reflexivity | vm_compute; reflexivity |].
  exists A', B'. destruct Hok as (H1 & H2 & _); [vm_compute; discriminate|].
  repeat split; assumption.
Defined.

Lemma handshake_rejection_tears_down_witness :
  let r := ntrip_server_attempt Samples.sample_h
             (Samples.sample_attempt "ICY 401 Unauthorized") Samples.connecting in
  sock r.1 = -1 /\ server_task r.1 = AtLoopHead /\ EvClose 5 ∈ r.2.
Proof.
  destruct (handshake_rejection_tears_down Samples.sample_h
              (Samples.sample_attempt "ICY 401 Unauthorized") Samples.connecting)
    as (H1 & H2 & _ & _ & _ & H3 & _).
  - unfold reaches_response; cbn. repeat split; eauto; lia.
  - right; right. exists "401 Unauthorized". split; reflexivity.
  - repeat split; assumption.
Defined.

(** *** The keep-alive gate *)


Lemma lor_sets_data_ready (b : Z) : (Z.land (Z.lor b DATA_READY_BIT) DATA_READY_BIT =? 0) = false.
Proof.
  rewrite Z.eqb_neq, Z.land_lor_distr_l, Z.lor_eq_0_iff. intros [_ H]. discriminate H.
Qed.












(** *** The handshake request *)

Lemma substring_whole (s : string) (n : nat) :
  (String.length s <= n)%nat -> String.substring 0 n s = s.
Proof.
  revert n. induction s as [|c s IH]; intros n Hn; destruct n as [|n]; cbn in *; try done.
  - lia.
  - f_equal. apply IH. lia.
Qed.

(** The first write of an attempt that got a socket is the buffer that
    [snprintf] filled. *)
Lemma attempt_first_write (h : ntrip_h) (e : attempt_env) (u : uplink)
    (host password mountpoint : string) :
  cfg_host e = Some host -> cfg_password e = Some password ->
  cfg_mountpoint e = Some mountpoint ->
  connect_result e <> CONNECT_SOCKET_ERROR_RESOLVE h ->
  connect_result e <> CONNECT_SOCKET_ERROR_CONNECT h ->
  first_write (ntrip_server_attempt h e u).2 =
  Some (String.list_byte_of_string
          (snprintf BUFFER_SIZE (source_request h password mountpoint))).
Proof.
  intros Hh Hp Hm Hr Hc. apply Z.eqb_neq in Hr, Hc.
  unfold ntrip_server_attempt, ntrip_server_connect. rewrite Hh, Hp, Hm.
  destruct u as [bits fd mtx ka led st slp].
  set (req := String.list_byte_of_string _).
  unfold_task; cbn -[snprintf source_request]. rewrite Hr, Hc; cbn.
  destruct (request_write_result e <? 0); cbn;
    [by destruct (0 <=? connect_result e)|].
  destruct (read_result e <=? 0); cbn;
    [by destruct (0 <=? connect_result e)|].
  destruct (extract_http_header h (response e) "") as [status|]; cbn;
    [|by destruct (0 <=? connect_result e)].
  destruct (ntrip_response_ok h status); cbn;
    [by destruct led|by destruct (0 <=? connect_result e)].
Qed.

(** C6, as the code has it.  When the formatted request is shorter than
    the working buffer of 512 bytes, the first bytes written after a
    successful connect are the request line "SOURCE <credential>
    /<mountpoint>", the header line "Source-Agent: NTRIP <name>/<version>"
    and an empty line, each ended by CRLF. *)
Theorem handshake_request_bytes (h : ntrip_h) (e : attempt_env) (u : uplink)
    (host password mountpoint : string) :
  cfg_host e = Some host -> cfg_password e = Some password ->
  cfg_mountpoint e = Some mountpoint ->
  connect_result e <> CONNECT_SOCKET_ERROR_RESOLVE h ->
  connect_result e <> CONNECT_SOCKET_ERROR_CONNECT h ->
  Z.of_nat (String.length (source_request h password mountpoint)) < BUFFER_SIZE ->
  first_write (ntrip_server_attempt h e u).2 =
  Some (String.list_byte_of_string
          ("SOURCE " +:+ password +:+ " /" +:+ mountpoint +:+ NEWLINE +:+
           "Source-Agent: NTRIP " +:+ NTRIP_SERVER_NAME h +:+ "/" +:+
           version_tail (app_version h) +:+ NEWLINE +:+
           NEWLINE)).
Proof.
  intros Hh Hp Hm Hr Hc Hfit.
  rewrite (attempt_first_write h e u host password mountpoint) by done.
  unfold snprintf. rewrite substring_whole; [done|].
  unfold BUFFER_SIZE in *. lia.
Qed.

Lemma handshake_request_bytes_witness :
  first_write (ntrip_server_attempt Samples.sample_h
                 (Samples.sample_attempt "ICY 200 OK") Samples.connecting).2 =
  Some (String.list_byte_of_string
          ("SOURCE secret /TEST" +:+ NEWLINE +:+
           "Source-Agent: NTRIP ESP32-XBee/1.0.0" +:+ NEWLINE +:+ NEWLINE)).
Proof.
  apply (handshake_request_bytes Samples.sample_h (Samples.sample_attempt "ICY 200 OK")
           Samples.connecting "caster.example.com" "secret" "TEST");
    try reflexivity; try discriminate.
Defined.

(** C6 as stated fails on a long credential: with a credential of 600
    characters the bytes written are the first 511 of the request, which
    is not the request and does not end in an empty line. *)
Lemma handshake_request_is_cut :
  exists written,
    first_write (ntrip_server_attempt Samples.sample_h Samples.long_attempt
                   Samples.connecting).2 = Some written /\
    length written = 511%nat /\
    written <> String.list_byte_of_string
                 (source_request Samples.sample_h Samples.long_password "TEST") /\
    last written = Some Byte.x78.
Proof.
  eexists. split; [vm_compute; reflexivity|].
  split; [vm_compute; reflexivity|].
  split; [|vm_compute; reflexivity].
  intros H. apply (f_equal length) in H. vm_compute in H. discriminate H.
Qed.

End UplinkFacts.

(** ** The socket server *)
Section ServerFacts.
Import SocketServer.

Ltac list_mem := rewrite ?elem_of_app, ?elem_of_cons, ?elem_of_nil; naive_solver.

Lemma first_free_None (cl : list socket_client_t) :
  first_free cl = None <-> Forall (fun c => connected c = true) cl.
Proof.
  unfold first_free. rewrite fmap_None, list_find_None.
  apply Forall_proper; [|done]. intros c. by destruct (connected c).
Qed.

Lemma first_free_Some (cl : list socket_client_t) (i : nat) :
  first_free cl = Some i ->
  exists c, cl !! i = Some c /\ connected c = false /\
            forall j y, cl !! j = Some y -> (j < i)%nat -> connected y = true.
Proof.
  unfold first_free. intros ([j c] & Hf & ->)%fmap_Some.
  apply list_find_Some in Hf as (Hl & Hc & Hmin). exists c. repeat split; try done.
  intros k y Hk Hlt. specialize (Hmin k y Hk Hlt). by destruct (connected y).
Qed.

Lemma first_match_None (a : sockaddr_in6) (cl : list socket_client_t) :
  first_match a cl = None <->
  Forall (fun c => ~ (connected c = true /\ addr c = a)) cl.
Proof. unfold first_match. by rewrite fmap_None, list_find_None. Qed.

(** The loop of the broadcast, slot by slot. *)
Lemma send_loop_lookup (udp : Z) (data : list Byte.byte) (sr : nat -> Z)
    (cl : list socket_client_t) (n k : nat) :
  (send_loop udp data sr n cl).1 !! k =
  (fun c => (send_to_client udp data (sr (n + k)%nat) c).1) <$> cl !! k.
Proof.
  revert n k. induction cl as [|c rest IH]; intros n k; [by destruct k|].
  cbn [send_loop].
  destruct (send_to_client udp data (sr n) c) as [c' t] eqn:Hc.
  specialize (IH (S n)).
  destruct (send_loop udp data sr (S n) rest) as [rest' t'] eqn:Hr.
  destruct k as [|k]; cbn.
  - by rewrite Nat.add_0_r, Hc.
  - rewrite Nat.add_succ_r. apply IH.
Qed.

Lemma send_loop_length (udp : Z) (data : list Byte.byte) (sr : nat -> Z)
    (cl : list socket_client_t) (n : nat) :
  length (send_loop udp data sr n cl).1 = length cl.
Proof.
  revert n. induction cl as [|c rest IH]; intros n; [done|].
  cbn [send_loop].
  destruct (send_to_client udp data (sr n) c) as [c' t].
  specialize (IH (S n)).
  destruct (send_loop udp data sr (S n) rest) as [rest' t']. cbn in *. by rewrite IH.
Qed.

Lemma send_loop_trace (udp : Z) (data : list Byte.byte) (sr : nat -> Z)
    (cl : list socket_client_t) (n m : nat) (ev : event) :
  (m, ev) ∈ (send_loop udp data sr n cl).2 <->
  exists k c, m = (n + k)%nat /\ cl !! k = Some c /\
              ev ∈ (send_to_client udp data (sr m) c).2.
Proof.
  revert n. induction cl as [|c rest IH]; intros n.
  - cbn. rewrite elem_of_nil. split; [done|]. intros (k & u & _ & Hk & _). done.
  - cbn [send_loop].
    destruct (send_to_client udp data (sr n) c) as [c' t] eqn:Hc.
    specialize (IH (S n)).
    destruct (send_loop udp data sr (S n) rest) as [rest' t'] eqn:Hr.
    cbn in *. rewrite elem_of_app, IH, list_elem_of_fmap. split.
    + intros [(y & Hy & Hin) | (k & v & -> & Hk & Hin)].
      * inversion Hy; subst. exists 0%nat, c. rewrite Hc. cbn.
        split; [lia|done].
      * exists (S k), v. split; [lia|done].
    + intros (k & v & -> & Hk & Hin). destruct k as [|k]; cbn in Hk.
      * left. inversion Hk; subst. rewrite Nat.add_0_r, Hc in Hin. exists ev.
        split; [f_equal; lia|done].
      * right. exists k, v. split; [lia|done].
Qed.

(** What the broadcast does to one slot depends on that slot and on the
    answer to its own send. *)
Lemma broadcast_slot (sr : nat -> Z) (data : list Byte.byte) (s : server)
    (k : nat) (c : socket_client_t) :
  clients s !! k = Some c ->
  clients (socket_send_to_all_clients sr data s).1 !! k =
    Some (send_to_client (udp_server_socket s) data (sr k) c).1 /\
  (forall ev, (k, ev) ∈ (socket_send_to_all_clients sr data s).2 <->
              ev ∈ (send_to_client (udp_server_socket s) data (sr k) c).2).
Proof.
  intros Hk. unfold socket_send_to_all_clients.
  pose proof (send_loop_lookup (udp_server_socket s) data sr (clients s) 0 k) as Hl.
  pose proof (send_loop_trace (udp_server_socket s) data sr (clients s) 0 k) as Ht.
  destruct (send_loop (udp_server_socket s) data sr 0 (clients s)) as [cl t].
  cbn in *. rewrite Hl, Hk. split; [done|].
  intros ev. rewrite Ht. split.
  - intros (j & v & -> & Hj & Hin). congruence.
  - intros Hin. exists k, c. done.
Qed.

Lemma broadcast_length (sr : nat -> Z) (data : list Byte.byte) (s : server) :
  length (clients (socket_send_to_all_clients sr data s).1) = length (clients s).
Proof.
  unfold socket_send_to_all_clients.
  pose proof (send_loop_length (udp_server_socket s) data sr (clients s) 0) as Hl.
  by destruct (send_loop (udp_server_socket s) data sr 0 (clients s)) as [cl t].
Qed.

(** C7. In one broadcast, a send that fails on an occupied slot [i] marks
    that slot disconnected and touches nothing else in it; the send to any
    other occupied slot [j] is still made, and when it goes through the
    sent-byte counter of [j] grows by the count sent; free slots and the
    size of the table are left as they were.  This holds for every table
    and every pattern of send results. *)
Theorem broadcast_failure_stays_in_its_slot
    (send_result : nat -> Z) (data : list Byte.byte) (s : server)
    (i j : nat) (ci cj : socket_client_t) :
  clients s !! i = Some ci -> clients s !! j = Some cj -> i <> j ->
  connected ci = true -> connected cj = true ->
  send_result i < 0 ->
  let s' := (socket_send_to_all_clients send_result data s).1 in
  let t := (socket_send_to_all_clients send_result data s).2 in
  clients s' !! i = Some (set_connected false ci) /\
  (j, send_call (udp_server_socket s) data cj) ∈ t /\
  (0 <= send_result j ->
     clients s' !! j = Some (set_bytes_sent (wrap32 (bytes_sent cj + send_result j)) cj)) /\
  (send_result j < 0 -> clients s' !! j = Some (set_connected false cj)) /\
  (forall k ck, clients s !! k = Some ck -> connected ck = false ->
                clients s' !! k = Some ck /\ forall ev, (k, ev) ∉ t) /\
  length (clients s') = length (clients s).
Proof.
  intros Hi Hj Hij Hci Hcj Hfail. cbn zeta.
  destruct (broadcast_slot send_result data s i ci Hi) as [Si _].
  destruct (broadcast_slot send_result data s j cj Hj) as [Sj Tj].
  unfold send_to_client in *. rewrite Hci in Si. rewrite Hcj in Sj, Tj.
  assert ((send_result i <? 0) = true) as Ei by (apply Z.ltb_lt; lia).
  rewrite Ei in Si. repeat split.
  - exact Si.
  - apply Tj. destruct (send_result j <? 0); cbn; list_mem.
  - intros Hok. assert ((send_result j <? 0) = false) as Ej by (apply Z.ltb_ge; lia).
    by rewrite Ej in Sj.
  - intros Hko. assert ((send_result j <? 0) = true) as Ej by (apply Z.ltb_lt; lia).
    by rewrite Ej in Sj.
  - destruct (broadcast_slot send_result data s k ck H) as [Sk _].
    unfold send_to_client in Sk. by rewrite H0 in Sk.
  - intros ev. destruct (broadcast_slot send_result data s k ck H) as [_ Tk].
    rewrite Tk. unfold send_to_client. rewrite H0. cbn. apply not_elem_of_nil.
  - apply broadcast_length.
Qed.

Lemma broadcast_failure_stays_in_its_slot_witness :
  let s' := (socket_send_to_all_clients ServerSamples.slot_2_fails [Byte.x01]
               ServerSamples.full_server).1 in
  (connected <$> clients s' !! 2%nat) = Some false /\
  (bytes_sent <$> clients s' !! 3%nat) = Some 64.
Proof.
  destruct (broadcast_failure_stays_in_its_slot ServerSamples.slot_2_fails [Byte.x01]
              ServerSamples.full_server 2 3
              (claimed_slot 12 (ServerSamples.peer 1 5002) 100)
              (claimed_slot 13 (ServerSamples.peer 1 5003) 100))
    as (H2 & _ & H3 & _); [reflexivity | reflexivity | lia | reflexivity | reflexivity
                          | vm_compute; reflexivity |].
  cbn zeta. rewrite H2, H3 by (vm_compute; discriminate). split; reflexivity.
Defined.

(** *** The bound on the table *)

Lemma tcp_accept_length (fd : Z) (a : sockaddr_in6) (now : Z) (s : server) :
  length (clients (socket_tcp_accept fd a now s).1.2) = length (clients s).
Proof.
  unfold socket_tcp_accept. destruct (fd <? 0); [done|].
  destruct (first_free (clients s)); cbn; [apply length_insert|done].
Qed.

Lemma udp_accept_length (len : Z) (a : sockaddr_in6) (now fd : Z) (s : server) :
  length (clients (socket_udp_accept len a now fd s).2) = length (clients s).
Proof.
  unfold socket_udp_accept. destruct (len <? 0); [done|].
  destruct (first_match a (clients s)); [done|].
  destruct (first_free (clients s)); cbn; [apply length_insert|done].
Qed.

Lemma udp_ready_length (now : Z) (queue : list datagram) (s s' : server)
    (queue' : list datagram) (t : list event) :
  socket_server_udp_ready now queue s = Some (s', queue', t) ->
  length (clients s') = length (clients s).
Proof.
  unfold socket_server_udp_ready. destruct queue as [|d rest]; [done|].
  destruct (0 <? _); [|by intros [= <- _ _]].
  destruct rest as [|next rest]; [done|].
  pose proof (udp_accept_length (Z.min (Z.of_nat (length (dg_payload next))) 1)
                (dg_from next) now (udp_server_socket s) s) as Hl.
  destruct (socket_udp_accept _ _ _ _ s) as [idx s1]. cbn in Hl.
  destruct (0 <=? idx); intros [= <- _ _]; [|done].
  cbn. unfold add_bytes_received.
  destruct (clients s1 !! Z.to_nat idx); [by rewrite length_insert|done].
Qed.

(** The table has its ten slots before and after every operation on
    it: accepting a stream peer, looking up or claiming a datagram peer,
    a turn of the datagram branch, a broadcast.  When all ten slots are
    occupied, an accepted stream connection is closed at once and the
    table is left as it was; a datagram lookup leaves the table as it was,
    and answers -1 for an address that no slot holds; and the broadcast
    still makes its send on each of the ten slots. *)
Theorem client_table_is_bounded (s : server) :
  length (clients s) = MAX_CLIENTS ->
  (forall fd a now, length (clients (socket_tcp_accept fd a now s).1.2) = MAX_CLIENTS) /\
  (forall len a now fd, length (clients (socket_udp_accept len a now fd s).2) = MAX_CLIENTS) /\
  (forall now queue s' queue' t,
     socket_server_udp_ready now queue s = Some (s', queue', t) ->
     length (clients s') = MAX_CLIENTS) /\
  (forall sr data, length (clients (socket_send_to_all_clients sr data s).1) = MAX_CLIENTS) /\
  (Forall (fun c => connected c = true) (clients s) ->
     (forall fd a now, 0 <= fd -> socket_tcp_accept fd a now s = (-1, s, [EvClose fd])) /\
     (forall len a now fd, (socket_udp_accept len a now fd s).2 = s) /\
     (forall len a now fd, Forall (fun c => addr c <> a) (clients s) ->
                           socket_udp_accept len a now fd s = (-1, s)) /\
     (forall sr data i, (i < MAX_CLIENTS)%nat ->
        exists c, clients s !! i = Some c /\
                  (i, send_call (udp_server_socket s) data c)
                    ∈ (socket_send_to_all_clients sr data s).2)).
Proof.
  intros Hlen. repeat apply conj.
  - intros. by rewrite tcp_accept_length.
  - intros. by rewrite udp_accept_length.
  - intros now queue s' queue' t H. by rewrite (udp_ready_length _ _ _ _ _ _ H).
  - intros. by rewrite broadcast_length.
  - intros Hfull. pose proof (proj2 (first_free_None _) Hfull) as Hff.
    repeat apply conj.
    + intros fd a now Hfd. unfold socket_tcp_accept. rewrite Hff.
      by destruct (Z.ltb_spec fd 0); [lia|].
    + intros len a now fd. unfold socket_udp_accept. rewrite Hff.
      destruct (len <? 0); [done|]. by destruct (first_match a (clients s)).
    + intros len a now fd Hnew. unfold socket_udp_accept. rewrite Hff.
      destruct (len <? 0); [done|].
      assert (first_match a (clients s) = None) as ->; [|done].
      apply first_match_None. eapply Forall_impl; [exact Hnew|]. cbn. tauto.
    + intros sr data i Hi.
      destruct (lookup_lt_is_Some_2 (clients s) i) as [c Hc]; [lia|].
      exists c. split; [done|].
      apply (broadcast_slot sr data s i c Hc).
      rewrite Forall_lookup in Hfull. specialize (Hfull i c Hc). cbn in Hfull.
      unfold send_to_client. rewrite Hfull. destruct (sr i <? 0); cbn; list_mem.
Qed.

Lemma client_table_is_bounded_witness :
  socket_tcp_accept 20 (ServerSamples.peer 9 6000) 200 ServerSamples.full_server =
    (-1, ServerSamples.full_server, [EvClose 20]) /\
  socket_udp_accept 1 (ServerSamples.peer 9 6000) 200 4 ServerSamples.full_server =
    (-1, ServerSamples.full_server).
Proof.
  destruct (client_table_is_bounded ServerSamples.full_server) as (_ & _ & _ & _ & H);
    [reflexivity|].
  destruct H as (Ht & _ & Hu & _); [by repeat constructor|].
  split; [apply Ht; lia | apply Hu; by repeat constructor].
Defined.

(** *** A datagram from an eleventh address *)

(** C2 fails on the code.  The turn of the server task takes a datagram
    off the socket with [recvfrom] and then [socket_udp_accept] reads the
    socket again with MSG_PEEK, which does not return while nothing else
    is queued.  With ten peers connected and UART data waiting, a
    datagram from an eleventh address that arrives alone stalls the turn:
    it does not come to its end, and the broadcast, which only this loop
    makes, is not made.  Beside that: a turn in which nothing is ready
    sends the UART data to each of the ten peers; and with another
    datagram queued behind it the datagram is forwarded to the UART and
    the table is left as it was, no slot being claimed. *)
Theorem lone_datagram_stalls_the_broadcast (e : turn_env) (d : datagram) (s : server) :
  length (clients s) = MAX_CLIENTS ->
  Forall (fun c => connected c = true) (clients s) ->
  Forall (fun c => addr c <> dg_from d) (clients s) ->
  0 <= udp_server_socket s -> dg_payload d <> [] -> uart_data e <> [] ->
  (0 < select_result e -> fd_isset e (udp_server_socket s) = true ->
     socket_server_task_turn e [d] s = None) /\
  (select_result e = 0 ->
     exists s' t, socket_server_task_turn e [] s = Some (s', [], t) /\
       forall i, (i < MAX_CLIENTS)%nat ->
         exists c, clients s !! i = Some c /\
                   SlotCall i (send_call (udp_server_socket s) (uart_data e) c) ∈ t) /\
  (forall now d' rest, dg_from d' = dg_from d ->
     socket_server_udp_ready now (d :: d' :: rest) s =
       Some (s, d' :: rest,
             [EvUartWrite (take (Z.to_nat (Z.min (Z.of_nat (length (dg_payload d)))
                                                 (SOCKET_BUFFER_SIZE - 1)))
                                (dg_payload d))])).
Proof.
  intros Hlen Hfull Hnew Hudp Hpay Huart.
  assert ((0 <? Z.min (Z.of_nat (length (dg_payload d))) (SOCKET_BUFFER_SIZE - 1)) = true)
    as Hpos.
  { apply Z.ltb_lt. unfold SOCKET_BUFFER_SIZE. destruct (dg_payload d); [done|].
    cbn [length]. lia. }
  repeat apply conj.
  - intros Hsel Hset. unfold socket_server_task_turn.
    destruct (Z.ltb_spec (select_result e) 0); [lia|].
    destruct (Z.eqb_spec (select_result e) 0); [lia|].
    assert (forall s1, udp_server_socket s1 = udp_server_socket s ->
              (if (0 <=? udp_server_socket s1) && fd_isset e (udp_server_socket s1)
               then socket_server_udp_ready (time_now e) [d] s1
               else Some (s1, [d], [])) = None) as Hstall.
    { intros s1 ->. rewrite Hset. destruct (Z.leb_spec 0 (udp_server_socket s)); [|lia].
      cbn [andb]. unfold socket_server_udp_ready. by rewrite Hpos. }
    destruct ((0 <=? tcp_server_socket s) && fd_isset e (tcp_server_socket s)).
    + unfold socket_tcp_accept. destruct (accept_result e <? 0); [by rewrite Hstall|].
      destruct (first_free (clients s)); by rewrite Hstall.
    + by rewrite Hstall.
  - intros Hsel. unfold socket_server_task_turn. rewrite Hsel. cbn.
    unfold uart_to_clients.
    assert ((0 <? length (uart_data e))%nat = true) as ->.
    { apply Nat.ltb_lt. destruct (uart_data e); [done|]. cbn. lia. }
    destruct (socket_send_to_all_clients (send_result e) (uart_data e) s) as [s' t] eqn:Hb.
    exists s', ((fun x => SlotCall x.1 x.2) <$> t). split; [done|].
    intros i Hi. destruct (lookup_lt_is_Some_2 (clients s) i) as [c Hc]; [lia|].
    exists c. split; [done|].
    apply list_elem_of_fmap. exists (i, send_call (udp_server_socket s) (uart_data e) c).
    split; [done|].
    pose proof (broadcast_slot (send_result e) (uart_data e) s i c Hc) as [_ Ht].
    rewrite Hb in Ht. apply Ht.
    rewrite Forall_lookup in Hfull. specialize (Hfull i c Hc). cbn in Hfull.
    unfold send_to_client. rewrite Hfull.
    destruct (send_result e i <? 0); cbn; apply list_elem_of_here.
  - intros now d' rest Hfrom. unfold socket_server_udp_ready. rewrite Hpos.
    unfold socket_udp_accept.
    destruct (Z.ltb_spec (Z.min (Z.of_nat (length (dg_payload d'))) 1) 0); [lia|].
    assert (first_match (dg_from d') (clients s) = None) as ->.
    { apply first_match_None. rewrite Hfrom. eapply Forall_impl; [exact Hnew|].
      cbn. tauto. }
    by rewrite (proj2 (first_free_None _) Hfull).
Qed.

Lemma lone_datagram_stalls_the_broadcast_witness :
  socket_server_task_turn ServerSamples.datagram_turn [ServerSamples.lone_datagram]
    ServerSamples.full_server = None.
Proof.
  destruct (lone_datagram_stalls_the_broadcast ServerSamples.datagram_turn
              ServerSamples.lone_datagram ServerSamples.full_server) as (H & _);
    [reflexivity | by repeat constructor | by repeat constructor | vm_compute; discriminate
    | discriminate | discriminate |].
  apply H; [reflexivity | reflexivity].
Defined.

(** *** The attribution of datagrams *)

(** X16. Asked twice about the same address, [socket_udp_accept] answers with
    the same slot, and the second call leaves the table alone. *)
Lemma socket_udp_accept_again (len1 len2 : Z) (a : sockaddr_in6) (now1 now2 fd : Z)
    (s : server) :
  0 <= len1 -> 0 <= len2 ->
  let '(i, s1) := socket_udp_accept len1 a now1 fd s in
  socket_udp_accept len2 a now2 fd s1 = (i, s1).
Proof.
  intros H1 H2. unfold socket_udp_accept.
  destruct (Z.ltb_spec len1 0); [lia|]. destruct (Z.ltb_spec len2 0); [lia|].
  destruct (first_match a (clients s)) as [i|] eqn:Hm; [by rewrite Hm|].
  destruct (first_free (clients s)) as [i|] eqn:Hf; [|by rewrite Hm, Hf].
  apply first_free_Some in Hf as (c & Hc & Hfree & Hbefore).
  apply first_match_None in Hm. cbn [clients set_clients].
  assert (first_match a (<[i:=claimed_slot fd a now1]> (clients s)) = Some i) as ->; [|done].
  unfold first_match. apply fmap_Some. exists (i, claimed_slot fd a now1). split; [|done].
  apply list_find_Some. split.
  { apply list_lookup_insert_eq. eapply lookup_lt_Some, Hc. }
  split; [done|]. intros j y Hj Hlt.
  rewrite list_lookup_insert_ne in Hj by lia.
  rewrite Forall_lookup in Hm. apply (Hm j y Hj).
Qed.

(** C8 fails on the code.  The turn of the server task takes a datagram
    off the socket and then asks [socket_udp_accept], which peeks at the
    socket again and so finds the sender of the datagram that comes next.
    With two datagrams from one sender followed by one from another, the
    2 bytes of the first are counted on slot 0, claimed for the first
    sender, and the 3 bytes of the second on slot 1, claimed for the
    other sender. *)
Theorem udp_bytes_go_to_the_next_sender :
  exists s',
    socket_server_udp_turns 2 100 ServerSamples.three_datagrams ServerSamples.fresh_server
      = Some (s', drop 2 ServerSamples.three_datagrams) /\
    ((fun c => (addr c, bytes_received c)) <$> clients s' !! 0%nat)
      = Some (ServerSamples.sender_S, 2) /\
    ((fun c => (addr c, bytes_received c)) <$> clients s' !! 1%nat)
      = Some (ServerSamples.sender_T, 3).
Proof. eexists. split; [vm_compute; reflexivity|]. split; reflexivity. Qed.

End ServerFacts.

(** ** The socket client *)
Section ClientFacts.
Import SocketClient.

Ltac list_mem := rewrite ?elem_of_app, ?elem_of_cons, ?elem_of_nil; naive_solver.

(** C9. [socket_client_send_data], and [socket_client_send_uart_data]
    which is the same function: without a connection or without a valid
    handle it answers ESP_ERR_INVALID_STATE, calls nothing and leaves the
    state, statistics included, as it was; with both, a send that fails
    closes the socket, marks the client disconnected and answers ESP_FAIL,
    and a send that goes through adds the count sent to bytes_sent
    (a 32-bit counter) and answers ESP_OK. *)
Theorem send_data_outcomes (send_result now : Z) (data : list Byte.byte) (c : client) :
  let r := socket_client_send_uart_data send_result now data c in
  r = socket_client_send_data send_result now data c /\
  (connected c = false \/ client_socket c < 0 -> r = (ESP_ERR_INVALID_STATE, c, [])) /\
  (connected c = true -> 0 <= client_socket c -> send_result < 0 ->
     r.1.1 = ESP_FAIL /\
     r.2 = [EvSend (client_socket c) data; EvClose (client_socket c); EvStatusLed 0xFF000000] /\
     connected r.1.2 = false /\ client_socket r.1.2 = -1 /\
     bytes_sent (client_stats r.1.2) = bytes_sent (client_stats c)) /\
  (connected c = true -> 0 <= client_socket c -> 0 <= send_result ->
     r.1.1 = ESP_OK /\ r.2 = [EvSend (client_socket c) data] /\
     bytes_sent (client_stats r.1.2) = wrap32 (bytes_sent (client_stats c) + send_result) /\
     connected r.1.2 = true /\ client_socket r.1.2 = client_socket c).
Proof.
  cbn zeta. unfold socket_client_send_uart_data, socket_client_send_data.
  split; [done|]. destruct c as [rn fd st conn]; cbn.
  repeat apply conj.
  - intros [-> | Hfd]; [done|].
    destruct (Z.ltb_spec fd 0); [|lia]. by rewrite orb_true_r.
  - intros -> Hfd Hs. destruct (Z.ltb_spec fd 0); [lia|].
    destruct (Z.ltb_spec send_result 0); [|lia]. cbn.
    unfold run, socket_client_disconnect, prog_bind, get, when_, emit, modify, prog_ret; cbn.
    destruct (Z.leb_spec 0 fd); [|lia]. cbn. done.
  - intros -> Hfd Hs. destruct (Z.ltb_spec fd 0); [lia|].
    destruct (Z.ltb_spec send_result 0); [lia|]. cbn. done.
Qed.

(** *** The backoff of the connect loop *)

Lemma non_decreasing_snoc (l : list Z) (d : Z) :
  non_decreasing l -> Forall (fun x => x <= d) l -> non_decreasing (l ++ [d]).
Proof.
  intros Hl Hd i j x y Hij Hi Hj.
  apply lookup_app_Some in Hj as [Hj | [Hlen Hj]].
  - assert (j < length l)%nat by (eapply lookup_lt_Some; eauto).
    rewrite lookup_app_l in Hi by lia. eauto.
  - apply list_lookup_singleton_Some in Hj as [_ <-].
    apply lookup_app_Some in Hi as [Hi | [_ Hi]].
    + rewrite Forall_lookup in Hd. eauto.
    + apply list_lookup_singleton_Some in Hi as [_ <-]. lia.
Qed.

Lemma backoff_delays_app (t1 t2 : list event) :
  backoff_delays (t1 ++ t2) = backoff_delays t1 ++ backoff_delays t2.
Proof. apply omap_app. Qed.

Lemma next_delay_bounds (d : Z) :
  RECONNECT_DELAY_MS <= d <= MAX_RECONNECT_DELAY_MS ->
  d <= next_delay d /\ next_delay d <= MAX_RECONNECT_DELAY_MS.
Proof.
  unfold next_delay, RECONNECT_DELAY_MS, MAX_RECONNECT_DELAY_MS.
  intros Hd. destruct (Z.gtb_spec (d * 2) 60000); lia.
Qed.

(** The tail of a successful turn delays nothing. *)
Lemma connect_success_no_delay (msg : option (list Byte.byte))
    (fd now g n : Z) (c : client) :
  backoff_delays (connect_success msg fd now g n c).2 = [].
Proof.
  unfold connect_success, socket_client_send_data.
  destruct c as [rn fd0 st conn]. destruct msg as [[|b m]|]; cbn; try done.
  unfold run, socket_client_disconnect, prog_bind, get, when_, emit, modify, prog_ret.
  destruct (fd <? 0) eqn:Hfd; cbn; rewrite ?Hfd; cbn; [done|].
  destruct (g <? 0); cbn.
  - destruct (0 <=? fd); cbn; done.
  - rewrite Hfd; cbn. destruct (n <? 0); cbn; [|done].
    destruct (0 <=? fd); cbn; done.
Qed.

(** What holds of the delay variable and of the delays already taken, at
    every test of the loop. *)
Definition backoff_invariant (d : Z) (delays : list Z) : Prop :=
  RECONNECT_DELAY_MS <= d <= MAX_RECONNECT_DELAY_MS /\
  non_decreasing delays /\
  Forall (fun x => RECONNECT_DELAY_MS <= x <= d) delays /\
  (delays = [] -> d = RECONNECT_DELAY_MS) /\
  (forall x, delays !! 0%nat = Some x -> x = RECONNECT_DELAY_MS).

Lemma backoff_invariant_step (d d' : Z) (delays : list Z) :
  backoff_invariant d delays -> d <= d' <= MAX_RECONNECT_DELAY_MS ->
  backoff_invariant d' (delays ++ [d]).
Proof.
  intros (Hd & Hnd & Hall & Hnil & Hhd) Hd'. unfold backoff_invariant. repeat apply conj.
  - lia.
  - lia.
  - apply non_decreasing_snoc; [done|]. eapply Forall_impl; [exact Hall|]. cbn; lia.
  - apply Forall_app. split.
    + eapply Forall_impl; [exact Hall|]. cbn; lia.
    + repeat constructor; lia.
  - by destruct delays.
  - intros x Hx. destruct delays as [|y ys]; cbn in Hx.
    + injection Hx as <-. by apply Hnil.
    + by apply Hhd.
Qed.

Lemma connect_loop_backoff (msg : option (list Byte.byte)) (turns : list turn)
    (d : Z) (c : client) (t : list event) :
  backoff_invariant d (backoff_delays t) ->
  let r := connect_loop msg turns d c t in
  (exists d', backoff_invariant d' (backoff_delays (result_trace r))) /\
  (forall d' c' t', r = Returned ESP_OK d' c' t' -> d' = RECONNECT_DELAY_MS).
Proof.
  revert d c t. induction turns as [|tn rest IH]; intros d c t Hinv; cbn zeta.
  { cbn. split; [eauto|done]. }
  cbn [connect_loop].
  destruct (client_running (set_client_running (running tn) c) &&
            negb (connected (set_client_running (running tn) c))); [|cbn; split; [eauto|done]].
  pose proof Hinv as (Hd & _).
  destruct (next_delay_bounds d Hd) as [Hn1 Hn2].
  destruct (outcome tn) as [|fd|fd|fd now g n].
  - apply IH. rewrite backoff_delays_app. cbn. by apply backoff_invariant_step.
  - apply IH. rewrite backoff_delays_app. cbn. apply backoff_invariant_step; [done|lia].
  - apply IH. rewrite backoff_delays_app. cbn. by apply backoff_invariant_step.
  - pose proof (connect_success_no_delay msg fd now g n (set_client_running (running tn) c)) as Hs.
    destruct (connect_success msg fd now g n _) as [c' t'].
    cbn [snd] in Hs. cbn [result_trace].
    rewrite backoff_delays_app, Hs, app_nil_r. split; [eauto|].
    intros d' c'' t'' [= <- _ _]. done.
Qed.

Lemma wifi_wait_no_delay (polls : list wifi_poll) (c : client) (t : list event) :
  match wifi_wait polls c t with
  | WifiUp _ t' | WifiStopped _ t' | WifiWaiting _ t' =>
      backoff_delays t' = backoff_delays t
  end.
Proof.
  revert c t. induction polls as [|p rest IH]; intros c t; cbn; [done|].
  assert (backoff_delays (t ++ [EvWifiPollDelay]) = backoff_delays t) as Ht.
  { rewrite backoff_delays_app. cbn. apply app_nil_r. }
  destruct (running_after_poll p); cbn; [|done].
  destruct (wifi_connected p); [done|].
  specialize (IH (set_client_running true c) (t ++ [EvWifiPollDelay])).
  destruct (wifi_wait rest _ _); congruence.
Qed.

(** C4. In one call of [socket_client_connect], whatever the turns of
    the loop meet: the delays the backoff takes never decrease from one
    failed attempt to the next, start at the minimum of 5000 ms and stay
    at or below the cap of 60000 ms; and when the call returns ESP_OK the
    delay variable holds the minimum again. *)
Theorem backoff_grows_and_resets
    (connect_msg : option (list Byte.byte)) (wifi_now : bool)
    (polls : list wifi_poll) (turns : list turn) (c : client) :
  let r := socket_client_connect connect_msg wifi_now polls turns c in
  let delays := backoff_delays (result_trace r) in
  non_decreasing delays /\
  Forall (fun x => RECONNECT_DELAY_MS <= x <= MAX_RECONNECT_DELAY_MS) delays /\
  (forall x, delays !! 0%nat = Some x -> x = RECONNECT_DELAY_MS) /\
  (forall d c' t, r = Returned ESP_OK d c' t -> d = RECONNECT_DELAY_MS).
Proof.
  cbn zeta. unfold socket_client_connect.
  assert (backoff_invariant RECONNECT_DELAY_MS []) as Hinit.
  { unfold backoff_invariant, non_decreasing, RECONNECT_DELAY_MS, MAX_RECONNECT_DELAY_MS.
    repeat apply conj; try done; lia. }
  assert (forall r : connect_result,
            (exists d', backoff_invariant d' (backoff_delays (result_trace r))) /\
            (forall d' c' t', r = Returned ESP_OK d' c' t' -> d' = RECONNECT_DELAY_MS) ->
            non_decreasing (backoff_delays (result_trace r)) /\
            Forall (fun x => RECONNECT_DELAY_MS <= x <= MAX_RECONNECT_DELAY_MS)
                   (backoff_delays (result_trace r)) /\
            (forall x, backoff_delays (result_trace r) !! 0%nat = Some x ->
                       x = RECONNECT_DELAY_MS) /\
            (forall d c' t, r = Returned ESP_OK d c' t -> d = RECONNECT_DELAY_MS)) as Hfin.
  { intros r [(d' & Hd & Hnd & Hall & _ & Hhd) Hok]. repeat apply conj; try done.
    eapply Forall_impl; [exact Hall|]. cbn; lia. }
  apply Hfin. destruct wifi_now.
  - by apply connect_loop_backoff.
  - pose proof (wifi_wait_no_delay polls c []) as Hw.
    destruct (wifi_wait polls c []) as [c' t|c' t|c' t];
      change (backoff_delays t = backoff_delays []) in Hw.
    + apply connect_loop_backoff. by rewrite Hw.
    + cbn [result_trace]. rewrite Hw. split; [eauto|done].
    + cbn [result_trace]. rewrite Hw. split; [eauto|done].
Qed.

End ClientFacts.

(** ** The SD card logger *)
Section SdLoggerFacts.
Import SdLogger.

Ltac list_mem := rewrite ?elem_of_app, ?elem_of_cons, ?elem_of_nil; naive_solver.

(** The date check writes nothing. *)
Lemma check_date_no_write (e : env) (s : sd_logger) (f : Z) (d : list Byte.byte) (w : Z) :
  EvFwrite f d w ∉ (sd_logger_check_date e s).2.
Proof.
  unfold sd_logger_check_date.
  destruct (logging_enabled s); cbn; [|apply not_elem_of_nil].
  case_bool_decide; cbn; [apply not_elem_of_nil|].
  destruct (log_file s); cbn; list_mem.
Qed.

Lemma check_date_adds_no_bytes (e : env) (s : sd_logger) (t : list event) :
  bytes_written ((sd_logger_check_date e s).2 ++ t) = bytes_written t.
Proof.
  unfold sd_logger_check_date.
  destruct (logging_enabled s); cbn; [|done].
  case_bool_decide; cbn; [done|]. by destruct (log_file s).
Qed.

(** C10. [sd_logger_write] answers ESP_OK and calls nothing when logging
    is disabled or no log file is open.  With logging enabled and a file
    open it answers ESP_OK or ESP_FAIL, and ESP_OK exactly when it made
    one [fwrite] of the data that wrote all [len] bytes; in particular it
    answers ESP_FAIL when [fwrite] wrote fewer, and when the date check
    found a new day and could not open the new file. *)
Theorem sd_logger_write_outcomes (e : env) (data : list Byte.byte) (s : sd_logger) :
  let r := sd_logger_write e data s in
  let len := Z.of_nat (length data) in
  (logging_enabled s = false \/ log_file s = None -> r = (ESP_OK, s, [])) /\
  (logging_enabled s = true -> is_Some (log_file s) ->
     (r.1.1 = ESP_OK \/ r.1.1 = ESP_FAIL) /\
     (r.1.1 = ESP_OK <-> exists f, EvFwrite f data len ∈ r.2) /\
     (r.1.1 = ESP_OK -> bytes_written r.2 = len) /\
     (log_file r.1.2 = None -> r.1.1 = ESP_FAIL /\ bytes_written r.2 = 0) /\
     (is_Some (log_file r.1.2) -> fwrite_result e <> len -> r.1.1 = ESP_FAIL)).
Proof.
  cbn zeta. unfold sd_logger_write. split.
  - intros [-> | ->]; [done|]. by rewrite orb_true_r.
  - intros Hen [f0 Hf]. rewrite Hen, Hf.
    rewrite bool_decide_eq_true_2 by eauto. cbn [negb orb].
    pose proof (fun f w => check_date_no_write e s f data w) as Hnw.
    pose proof (check_date_adds_no_bytes e s) as Happ.
    destruct (sd_logger_check_date e s) as [[r1 s1] t1]. cbn in Hnw, Happ.
    destruct (log_file s1) as [f|] eqn:Hf1; cbn.
    + destruct (Z.eqb_spec (fwrite_result e) (Z.of_nat (length data))) as [Heq|Hne]; cbn.
      * repeat split; try done; try (by left); try (intros; congruence).
        all: intros _; try (exists f; rewrite Heq; list_mem).
        all: rewrite Happ; cbn; lia.
      * repeat split; try done; try (by right); try (intros; congruence).
        all: intros (f' & Hin).
        all: apply elem_of_app in Hin as [Hin|Hin]; [by apply Hnw in Hin|].
        all: apply elem_of_cons in Hin as [Hin|Hin]; [congruence|].
        all: by apply elem_of_nil in Hin.
    + repeat split; try done; try (by right); try (intros; congruence).
      all: try (by intros (f' & Hin); apply Hnw in Hin).
      all: try (by intros [? ?]).
      all: rewrite <- (app_nil_r t1), Happ; done.
Qed.

Lemma sd_logger_write_outcomes_witness :
  let s := {| log_file := Some 9; current_date := "20240101"; logging_enabled := true |} in
  (sd_logger_write {| new_date := "20240101"; fopen_result := None; fwrite_result := 3 |}
                   [Byte.x01; Byte.x02; Byte.x03] s).1.1 = ESP_OK /\
  (sd_logger_write {| new_date := "20240101"; fopen_result := None; fwrite_result := 2 |}
                   [Byte.x01; Byte.x02; Byte.x03] s).1.1 = ESP_FAIL /\
  (sd_logger_write {| new_date := "20240102"; fopen_result := None; fwrite_result := 3 |}
                   [Byte.x01; Byte.x02; Byte.x03] s).1.1 = ESP_FAIL.
Proof.
  cbn zeta.
  destruct (sd_logger_write_outcomes
              {| new_date := "20240101"; fopen_result := None; fwrite_result := 3 |}
              [Byte.x01; Byte.x02; Byte.x03]
              {| log_file := Some 9; current_date := "20240101"; logging_enabled := true |})
    as [_ H].
  destruct H as (_ & Hiff & _); [reflexivity | by eexists |].
  split; [|split; reflexivity].
  apply Hiff. exists 9. vm_compute. constructor.
Defined.

End SdLoggerFacts.

(** * Further properties *)

(** ** The uplinks: forwarding gate, socket ownership, disconnect cycle *)
Section UplinkMore.
Import Uplink.

Ltac unfold_task :=
  unfold run, ntrip_server_uart_handler, ntrip_server_sleep_task_iter,
    ntrip_server_loop_head, ntrip_server_disconnected, ntrip_server_error,
    xEventGroupSetBits, xEventGroupClearBits, set_led_active, ERROR_ACTION,
    destroy_socket, vTaskResume_server_task, when_, prog_bind, get, modify, emit,
    prog_ret, leave.

Ltac list_mem := rewrite ?elem_of_app, ?elem_of_cons, ?elem_of_nil; naive_solver.
Ltac in_list := first [apply list_elem_of_here | apply list_elem_of_further; in_list].

(** Without caster_ready the handler writes nothing. *)
Lemma handler_silent_without_caster
    (w : Z -> list Byte.byte -> Z) (chunk : list Byte.byte) (u : uplink) :
  bit_set (event_bits u) CASTER_READY_BIT = false ->
  writes (run (ntrip_server_uart_handler w chunk) u).2 = [].
Proof.
  intros Hgate.
  destruct u as [bits fd mtx ka led st slp]; cbn in *.
  unfold bit_set in *. apply negb_false_iff in Hgate.
  unfold_task; cbn.
  destruct (Z.land bits DATA_READY_BIT =? 0) eqn:E2; cbn; rewrite ?Hgate; cbn;
    destruct st; cbn; unfold bit_set; rewrite ?lor_sets_data_ready; cbn;
    rewrite ?Hgate; cbn; done.
Qed.

(** X1. The handler forwards nothing unless the caster is ready, the socket
    mutex can be taken and the handle is valid: otherwise it makes no
    write, closes nothing, and leaves the handle and the worker as they
    were; the keep-alive count is reset all the same. *)
Theorem handler_forwards_only_when_ready
    (w : Z -> list Byte.byte -> Z) (chunk : list Byte.byte) (u : uplink) :
  bit_set (event_bits u) CASTER_READY_BIT = false \/
  sock_mutex_taken u = true \/ sock u < 0 ->
  let r := run (ntrip_server_uart_handler w chunk) u in
  writes r.2 = [] /\ closed_handles r.2 = [] /\ (EvResumeServerTask ∉ r.2) /\
  sock r.1 = sock u /\ data_keep_alive r.1 = 0 /\
  (server_task u <> WaitingForData -> server_task r.1 = server_task u).
Proof.
  intros Hgate. cbn zeta.
  destruct u as [bits fd mtx ka led st slp]; cbn in *.
  unfold bit_set in *. unfold_task; cbn.
  destruct (Z.land bits DATA_READY_BIT =? 0) eqn:E2; cbn;
    destruct (Z.land bits CASTER_READY_BIT =? 0) eqn:E1; cbn;
    destruct st; cbn; unfold bit_set; rewrite ?lor_sets_data_ready; cbn;
    try (repeat split; try done; try list_mem; intros; congruence).
  all: destruct (Z.land bits DATA_SENT_BIT =? 0) eqn:E4; cbn;
    unfold bit_set; rewrite ?(land_lor_keeps _ DATA_SENT_BIT _ E2); cbn.
  all: destruct mtx; cbn;
    try (repeat split; try done; try list_mem; intros; congruence).
  all: destruct (0 <=? fd) eqn:Hfd; cbn;
    try (repeat split; try done; try list_mem; intros; congruence).
  all: exfalso; apply Z.leb_le in Hfd;
    destruct Hgate as [Hg | [Hg | Hg]]; try discriminate; lia.
Qed.

Lemma handler_forwards_only_when_ready_witness :
  writes (run (ntrip_server_uart_handler Samples.write_7_fails Samples.sample_chunk)
              Samples.connecting).2 = [].
Proof.
  apply (handler_forwards_only_when_ready Samples.write_7_fails Samples.sample_chunk
           Samples.connecting).
  left. reflexivity.
Defined.

Lemma lor_sets_caster_ready (b : Z) :
  (Z.land (Z.lor b CASTER_READY_BIT) CASTER_READY_BIT =? 0) = false.
Proof.
  rewrite Z.eqb_neq, Z.land_lor_distr_l, Z.lor_eq_0_iff. intros [_ H]. discriminate H.
Qed.

(** X2. An attempt that obtained a socket either ends with the worker parked
    in Streaming, holding that socket, caster_ready set and nothing
    closed, or ends at the top of the loop with that socket closed
    exactly once, the handle variable at -1, the keep-alive task suspended
    and the event bits as they were.  No branch leaves the socket open
    without an owner. *)
Theorem attempt_keeps_or_closes_the_socket (h : ntrip_h) (e : attempt_env) (u : uplink) :
  is_Some (cfg_host e) -> is_Some (cfg_password e) -> is_Some (cfg_mountpoint e) ->
  0 <= connect_result e -> server_task u = Connecting ->
  let r := ntrip_server_attempt h e u in
  (exists host mp, cfg_host e = Some host /\ cfg_mountpoint e = Some mp /\
     server_task r.1 = Streaming host (cfg_port e) mp /\
     sock r.1 = connect_result e /\
     bit_set (event_bits r.1) CASTER_READY_BIT = true /\
     closed_handles r.2 = [] /\ sleep_task_suspended r.1 = false) \/
  (server_task r.1 = AtLoopHead /\ sock r.1 = -1 /\
   closed_handles r.2 = [connect_result e] /\
   sleep_task_suspended r.1 = true /\ event_bits r.1 = event_bits u).
Proof.
  intros [host Hh] [pw Hp] [mp Hm] Hfd Hst. cbn zeta.
  apply Z.leb_le in Hfd.
  unfold ntrip_server_attempt, ntrip_server_connect. rewrite Hh, Hp, Hm.
  destruct u as [bits fd mtx ka led st slp]; cbn in Hst; subst st.
  unfold_task; cbn -[snprintf source_request].
  destruct (connect_result e =? CONNECT_SOCKET_ERROR_RESOLVE h); cbn;
    [rewrite Hfd; cbn; right; done|].
  destruct (connect_result e =? CONNECT_SOCKET_ERROR_CONNECT h); cbn;
    [rewrite Hfd; cbn; right; done|].
  destruct (request_write_result e <? 0); cbn -[snprintf source_request];
    [rewrite Hfd; cbn -[snprintf source_request]; right; done|].
  destruct (read_result e <=? 0); cbn -[snprintf source_request];
    [rewrite Hfd; cbn -[snprintf source_request]; right; done|].
  destruct (extract_http_header h (response e) "") as [status|];
    cbn -[snprintf source_request];
    [|rewrite Hfd; cbn -[snprintf source_request]; right; done].
  destruct (ntrip_response_ok h status); cbn -[snprintf source_request];
    [|rewrite Hfd; cbn -[snprintf source_request]; right; done].
  left. exists host, mp. destruct led; cbn -[snprintf source_request];
    unfold bit_set; rewrite lor_sets_caster_ready; done.
Qed.

Lemma attempt_keeps_or_closes_the_socket_witness :
  closed_handles (ntrip_server_attempt Samples.sample_h
                    (Samples.sample_attempt "ICY 401 Unauthorized") Samples.connecting).2
  = [5].
Proof.
  destruct (attempt_keeps_or_closes_the_socket Samples.sample_h
              (Samples.sample_attempt "ICY 401 Unauthorized") Samples.connecting)
    as [(host & mp & _ & _ & Hs & _) | (_ & _ & Hc & _)];
    [by eexists | by eexists | by eexists | cbn; lia | reflexivity | | exact Hc].
  vm_compute in Hs. discriminate Hs.
Defined.

(** X3. The attempt ends with the worker in Streaming exactly when the
    configuration strings were obtained, the connect gave neither error
    code, the request write did not fail, a non-empty response was read
    and its status line is a recognised one; otherwise the worker is at
    the top of its loop.  The CONNECTED announcement, tagged with the
    endpoint's tag, and the reset of the retry state happen in the first
    case and in no other. *)
Theorem attempt_succeeds_iff (h : ntrip_h) (e : attempt_env) (u : uplink) :
  let r := ntrip_server_attempt h e u in
  let connected_line host mp :=
    EvNmea ("$PESP,NTRIP," +:+ tag h +:+ ",CONNECTED,%s:%d,%s")
           [ArgS host; ArgD (cfg_port e); ArgS mp] in
  (attempt_succeeds h e <->
   exists host mp, server_task r.1 = Streaming host (cfg_port e) mp) /\
  (attempt_succeeds h e ->
   exists host mp, cfg_host e = Some host /\ cfg_mountpoint e = Some mp /\
                   connected_line host mp ∈ r.2 /\ EvRetryReset ∈ r.2) /\
  (~ attempt_succeeds h e ->
   server_task r.1 = AtLoopHead /\ (EvRetryReset ∉ r.2) /\
   (forall host mp, connected_line host mp ∉ r.2) /\
   forall bits, EvSetBits bits ∉ r.2).
Proof.
  cbn zeta. unfold attempt_succeeds, ntrip_server_attempt, ntrip_server_connect.
  destruct u as [bits fd mtx ka led st slp].
  destruct (cfg_host e) as [host|]; cycle 1.
  { unfold_task; cbn. destruct (0 <=? fd); cbn;
      (split; [split; [intros ([? ?] & _); done | intros (? & ? & ?); done]|]);
      (split; [intros ([? ?] & _); done|]); intros _;
      repeat split; try done; intros; list_mem. }
  destruct (cfg_password e) as [pw|]; cycle 1.
  { unfold_task; cbn. destruct (0 <=? fd); cbn;
      (split; [split; [intros (_ & [? ?] & _); done | intros (? & ? & ?); done]|]);
      (split; [intros (_ & [? ?] & _); done|]); intros _;
      repeat split; try done; intros; list_mem. }
  destruct (cfg_mountpoint e) as [mp|]; cycle 1.
  { unfold_task; cbn. destruct (0 <=? fd); cbn;
      (split; [split; [intros (_ & _ & [? ?] & _); done | intros (? & ? & ?); done]|]);
      (split; [intros (_ & _ & [? ?] & _); done|]); intros _;
      repeat split; try done; intros; list_mem. }
  unfold_task; cbn -[snprintf source_request].
  destruct (Z.eqb_spec (connect_result e) (CONNECT_SOCKET_ERROR_RESOLVE h)) as [Er|Er];
    cbn -[snprintf source_request].
  { destruct (0 <=? connect_result e); cbn;
      (split; [split; [intros (_ & _ & _ & ? & _); done | intros (? & ? & ?); done]|]);
      (split; [intros (_ & _ & _ & ? & _); done|]); intros _;
      repeat split; try done; intros; list_mem. }
  destruct (Z.eqb_spec (connect_result e) (CONNECT_SOCKET_ERROR_CONNECT h)) as [Ec|Ec];
    cbn -[snprintf source_request].
  { destruct (0 <=? connect_result e); cbn;
      (split; [split; [intros (_ & _ & _ & _ & ? & _); done | intros (? & ? & ?); done]|]);
      (split; [intros (_ & _ & _ & _ & ? & _); done|]); intros _;
      repeat split; try done; intros; list_mem. }
  destruct (Z.ltb_spec (request_write_result e) 0) as [Ew|Ew];
    cbn -[snprintf source_request].
  { destruct (0 <=? connect_result e); cbn -[snprintf source_request];
      (split; [split; [intros (_ & _ & _ & _ & _ & ? & _); lia | intros (? & ? & ?); done]|]);
      (split; [intros (_ & _ & _ & _ & _ & ? & _); lia|]); intros _;
      repeat split; try done; intros; list_mem. }
  destruct (Z.leb_spec (read_result e) 0) as [El|El];
    cbn -[snprintf source_request].
  { destruct (0 <=? connect_result e); cbn -[snprintf source_request];
      (split; [split; [intros (_ & _ & _ & _ & _ & _ & ? & _); lia | intros (? & ? & ?); done]|]);
      (split; [intros (_ & _ & _ & _ & _ & _ & ? & _); lia|]); intros _;
      repeat split; try done; intros; list_mem. }
  destruct (extract_http_header h (response e) "") as [status|];
    cbn -[snprintf source_request]; cycle 1.
  { destruct (0 <=? connect_result e); cbn -[snprintf source_request];
      (split; [split; [intros (_ & _ & _ & _ & _ & _ & _ & ? & ? & _); done
                      | intros (? & ? & ?); done]|]);
      (split; [intros (_ & _ & _ & _ & _ & _ & _ & ? & ? & _); done|]); intros _;
      repeat split; try done; intros; list_mem. }
  destruct (ntrip_response_ok h status) eqn:Eok; cbn -[snprintf source_request]; cycle 1.
  { destruct (0 <=? connect_result e); cbn -[snprintf source_request];
      (split; [split; [intros (_ & _ & _ & _ & _ & _ & _ & ? & [= <-] & ?); congruence
                      | intros (? & ? & ?); done]|]);
      (split; [intros (_ & _ & _ & _ & _ & _ & _ & ? & [= <-] & ?); congruence|]); intros _;
      repeat split; try done; intros; list_mem. }
  assert (is_Some (Some host) /\ is_Some (Some pw) /\ is_Some (Some mp) /\
          connect_result e <> CONNECT_SOCKET_ERROR_RESOLVE h /\
          connect_result e <> CONNECT_SOCKET_ERROR_CONNECT h /\
          0 <= request_write_result e /\ 0 < read_result e /\
          exists status0, Some status = Some status0 /\ ntrip_response_ok h status0 = true) as Hall.
  { repeat split; eauto. }
  destruct led; cbn -[snprintf source_request];
    (split; [split; [eauto|done]|]);
    (split; [intros _; exists host, mp; repeat split; list_mem | intros Hn; by destruct Hn]).
Qed.

(** X4. When a configuration string could not be obtained the attempt makes
    no connect and no write; the turn ends at the top of the loop with
    the event bits as they were. *)
Theorem attempt_without_configuration (h : ntrip_h) (e : attempt_env) (u : uplink) :
  cfg_host e = None \/ cfg_password e = None \/ cfg_mountpoint e = None ->
  let r := ntrip_server_attempt h e u in
  (forall host port, EvConnectSocket host port ∉ r.2) /\ writes r.2 = [] /\
  server_task r.1 = AtLoopHead /\ event_bits r.1 = event_bits u /\
  sleep_task_suspended r.1 = true /\
  closed_handles r.2 = (if 0 <=? sock u then [sock u] else []).
Proof.
  intros Hcfg. cbn zeta. unfold ntrip_server_attempt, ntrip_server_connect.
  destruct u as [bits fd mtx ka led st slp].
  assert (match cfg_host e, cfg_password e, cfg_mountpoint e with
          | Some _, Some _, Some _ => False
          | _, _, _ => True
          end) as Hm.
  { destruct Hcfg as [-> | [-> | ->]]; [done| |];
      destruct (cfg_host e); try done; destruct (cfg_password e); done. }
  destruct (cfg_host e), (cfg_password e), (cfg_mountpoint e); try done;
    unfold_task; cbn; destruct (0 <=? fd); cbn;
    repeat split; try done; intros; list_mem.
Qed.

Lemma attempt_without_configuration_witness :
  writes (ntrip_server_attempt Samples.sample_h
            {| cfg_port := 2101; cfg_host := None; cfg_password := Some "secret";
               cfg_mountpoint := Some "TEST"; connect_result := 5;
               request_write_result := 0; read_result := 0; response := "" |}
            Samples.connecting).2 = [].
Proof.
  apply (attempt_without_configuration Samples.sample_h
           {| cfg_port := 2101; cfg_host := None; cfg_password := Some "secret";
              cfg_mountpoint := Some "TEST"; connect_result := 5;
              request_write_result := 0; read_result := 0; response := "" |}
           Samples.connecting).
  left. reflexivity.
Defined.

Lemma ldiff_clears_within (b m k : Z) :
  Z.land k m = k -> (Z.land (Z.ldiff b m) k =? 0) = true.
Proof.
  intros Hk. apply Z.eqb_eq, Z.bits_inj'. intros n Hn.
  rewrite Z.land_spec, Z.ldiff_spec, Z.bits_0.
  apply (f_equal (fun z => Z.testbit z n)) in Hk. rewrite Z.land_spec in Hk.
  destruct (Z.testbit b n), (Z.testbit m n), (Z.testbit k n); done.
Qed.

Lemma ldiff_keeps_outside (b m k : Z) :
  Z.land k m = 0 -> Z.land (Z.ldiff b m) k = Z.land b k.
Proof.
  intros Hk. apply Z.bits_inj'. intros n Hn.
  rewrite !Z.land_spec, Z.ldiff_spec.
  apply (f_equal (fun z => Z.testbit z n)) in Hk. rewrite Z.land_spec, Z.bits_0 in Hk.
  destruct (Z.testbit b n), (Z.testbit m n), (Z.testbit k n); done.
Qed.

(** X5. The whole disconnect cycle.  A streaming uplink whose write fails:
    the handler closes the socket and resumes the worker; the worker's
    next stretch clears caster_ready and data_sent but not data_ready,
    announces DISCONNECTED for the same host, port and mountpoint,
    suspends the keep-alive task and is at the top of its loop; the
    socket was closed once in all.  From there the worker goes on to a new
    attempt without waiting for data, and until that attempt succeeds no
    chunk is written anywhere. *)
Theorem write_failure_leads_to_reconnect
    (h : ntrip_h) (w : Z -> list Byte.byte -> Z) (chunk : list Byte.byte)
    (e : attempt_env) (u : uplink) (host : string) (port : Z) (mp : string) :
  streaming u = true -> server_task u = Streaming host port mp ->
  w (sock u) chunk < 0 ->
  let r1 := run (ntrip_server_uart_handler w chunk) u in
  let r2 := ntrip_server_task_step h e r1.1 in
  let r3 := ntrip_server_task_step h e r2.1 in
  closed_handles (r1.2 ++ r2.2) = [sock u] /\
  EvNmea ("$PESP,NTRIP," +:+ tag h +:+ ",DISCONNECTED,%s:%d,%s")
         [ArgS host; ArgD port; ArgS mp] ∈ r2.2 /\
  bit_set (event_bits r2.1) CASTER_READY_BIT = false /\
  bit_set (event_bits r2.1) DATA_SENT_BIT = false /\
  bit_set (event_bits r2.1) DATA_READY_BIT = true /\
  sock r2.1 = -1 /\ sleep_task_suspended r2.1 = true /\
  server_task r2.1 = AtLoopHead /\
  server_task r3.1 = Connecting /\ r3.2 = [EvRetryDelay] /\
  (forall w' chunk', writes (run (ntrip_server_uart_handler w' chunk') r2.1).2 = []).
Proof.
  intros Hs Hst Hw. cbn zeta.
  pose proof Hs as (Hc & Hfd & Hm & _)%streaming_inv.
  apply Z.ltb_lt in Hw.
  destruct u as [bits fd mtx ka led st slp]; cbn in *; subst.
  assert (forall b, (Z.land (Z.ldiff b (Z.lor CASTER_READY_BIT DATA_SENT_BIT))
                       CASTER_READY_BIT =? 0) = true) as K1.
  { intros b. by apply ldiff_clears_within. }
  assert (forall b, (Z.land (Z.ldiff b (Z.lor CASTER_READY_BIT DATA_SENT_BIT))
                       DATA_SENT_BIT =? 0) = true) as K4.
  { intros b. by apply ldiff_clears_within. }
  assert (forall b, Z.land (Z.ldiff b (Z.lor CASTER_READY_BIT DATA_SENT_BIT)) DATA_READY_BIT
                    = Z.land b DATA_READY_BIT) as K2.
  { intros b. by apply ldiff_keeps_outside. }
  cut (let r1 := run (ntrip_server_uart_handler w chunk)
                   {| event_bits := bits; sock := fd; sock_mutex_taken := false;
                      data_keep_alive := ka; status_led := led;
                      server_task := Streaming host port mp;
                      sleep_task_suspended := slp |} in
       let r2 := ntrip_server_task_step h e r1.1 in
       let r3 := ntrip_server_task_step h e r2.1 in
       closed_handles (r1.2 ++ r2.2) = [fd] /\
       EvNmea ("$PESP,NTRIP," +:+ tag h +:+ ",DISCONNECTED,%s:%d,%s")
              [ArgS host; ArgD port; ArgS mp] ∈ r2.2 /\
       bit_set (event_bits r2.1) CASTER_READY_BIT = false /\
       bit_set (event_bits r2.1) DATA_SENT_BIT = false /\
       bit_set (event_bits r2.1) DATA_READY_BIT = true /\
       sock r2.1 = -1 /\ sleep_task_suspended r2.1 = true /\
       server_task r2.1 = AtLoopHead /\
       server_task r3.1 = Connecting /\ r3.2 = [EvRetryDelay]).
  { cbn zeta. intros (H1 & H2 & H3 & H4 & H5 & H6 & H7 & H8 & H9 & H10).
    repeat split; try done. intros w' chunk'.
    by apply handler_silent_without_caster. }
  cbn zeta. unfold ntrip_server_task_step. unfold_task; cbn. rewrite Hc.
  destruct (Z.land bits DATA_READY_BIT =? 0) eqn:E2;
    destruct (Z.land bits DATA_SENT_BIT =? 0) eqn:E4;
    cbn; rewrite ?Hfd; cbn; rewrite ?Hw; cbn; rewrite ?Hfd; cbn;
    destruct led; cbn; unfold bit_set;
    repeat split;
    rewrite ?K1, ?K4, ?K2;
    try rewrite (land_lor_keeps _ DATA_SENT_BIT _ (lor_sets_data_ready bits));
    rewrite ?lor_sets_data_ready;
    try rewrite (land_lor_keeps _ DATA_SENT_BIT _ E2);
    rewrite ?E2; cbn;
    first [done | in_list].
Qed.

Lemma write_failure_leads_to_reconnect_witness :
  let r1 := run (ntrip_server_uart_handler Samples.write_7_fails Samples.sample_chunk)
                (Samples.streaming_on 7) in
  let r2 := ntrip_server_task_step Samples.sample_h (Samples.sample_attempt "") r1.1 in
  closed_handles (r1.2 ++ r2.2) = [7] /\ server_task r2.1 = AtLoopHead.
Proof.
  destruct (write_failure_leads_to_reconnect Samples.sample_h Samples.write_7_fails
              Samples.sample_chunk (Samples.sample_attempt "") (Samples.streaming_on 7)
              "caster.example.com" 2101 "TEST")
    as (H1 & _ & _ & _ & _ & _ & _ & H8 & _);
    [reflexivity | reflexivity | vm_compute; reflexivity |].
  split; assumption.
Defined.

End UplinkMore.

(** ** The socket server: accept, close, read pass, queries *)
Section ServerMore.
Import SocketServer.

Ltac in_list := first [apply list_elem_of_here | apply list_elem_of_further; in_list].
Ltac no_event :=
  cbn [fst snd] in *; match goal with H : _ ∈ [] |- _ => by apply elem_of_nil in H end.

Lemma count_connected_app (l1 l2 : list socket_client_t) :
  count_connected (l1 ++ l2) = (count_connected l1 + count_connected l2)%nat.
Proof. unfold count_connected. by rewrite filter_app, length_app. Qed.

Lemma count_connected_cons (c : socket_client_t) (l : list socket_client_t) :
  count_connected (c :: l) =
  ((if connected c then 1 else 0) + count_connected l)%nat.
Proof.
  unfold count_connected. rewrite filter_cons.
  destruct (connected c); [by rewrite decide_True | by rewrite decide_False].
Qed.

Lemma count_connected_insert (cl : list socket_client_t) (i : nat) (c x : socket_client_t) :
  cl !! i = Some c ->
  (count_connected (<[i:=x]> cl) + (if connected c then 1 else 0) =
   count_connected cl + (if connected x then 1 else 0))%nat.
Proof.
  intros Hc. assert (i < length cl)%nat as Hi by (eapply lookup_lt_Some; eauto).
  rewrite insert_take_drop by done.
  rewrite <- (take_drop_middle cl i c Hc) at 3.
  rewrite !count_connected_app, !count_connected_cons. lia.
Qed.

Lemma count_connected_le (cl : list socket_client_t) :
  (count_connected cl <= length cl)%nat.
Proof. unfold count_connected. apply length_filter. Qed.

(** X6. With a slot free, [socket_tcp_accept] puts the peer in the first
    free slot and answers with its index: every slot before it is
    occupied, the slot holds the new handle and address with both
    counters at zero, every other slot is as it was, nothing is closed,
    and one more slot is connected. *)
Theorem tcp_accept_claims_first_free
    (fd : Z) (a : sockaddr_in6) (now : Z) (s : server) (i : nat) :
  0 <= fd -> first_free (clients s) = Some i ->
  let r := socket_tcp_accept fd a now s in
  r.1.1 = Z.of_nat i /\ r.2 = [] /\
  clients r.1.2 !! i = Some (claimed_slot fd a now) /\
  (forall j, j <> i -> clients r.1.2 !! j = clients s !! j) /\
  (forall j c, (j < i)%nat -> clients s !! j = Some c -> connected c = true) /\
  count_connected (clients r.1.2) = S (count_connected (clients s)).
Proof.
  intros Hfd Hfree. cbn zeta. unfold socket_tcp_accept.
  destruct (Z.ltb_spec fd 0); [lia|]. rewrite Hfree. cbn.
  apply first_free_Some in Hfree as (c & Hc & Hcf & Hbefore).
  repeat split.
  - apply list_lookup_insert_eq. eapply lookup_lt_Some, Hc.
  - intros j Hj. by apply list_lookup_insert_ne.
  - intros j y Hlt Hy. eauto.
  - pose proof (count_connected_insert (clients s) i c (claimed_slot fd a now) Hc) as Hn.
    rewrite Hcf in Hn. cbn [connected claimed_slot] in Hn.
    unfold count_connected in *. lia.
Qed.

Lemma tcp_accept_claims_first_free_witness :
  (socket_tcp_accept 20 (ServerSamples.peer 9 6000) 200 ServerSamples.fresh_server).1.1 = 0.
Proof.
  apply (tcp_accept_claims_first_free 20 (ServerSamples.peer 9 6000) 200
           ServerSamples.fresh_server 0); [lia | reflexivity].
Defined.

(** X7. The client count is the number of connected slots, is never above
    the size of the table, and is 0 while the mutex does not exist.  A
    stream accept raises it by one when it returns a slot and leaves it
    when it returns -1. *)
Theorem client_count_tracks_accept
    (m : module_state) (fd : Z) (a : sockaddr_in6) (now : Z) :
  let r := socket_tcp_accept fd a now (table m) in
  let m' := {| table := r.1.2; server_running := server_running m;
               clients_mutex := clients_mutex m |} in
  0 <= socket_server_get_client_count m <= Z.of_nat (length (clients (table m))) /\
  (clients_mutex m = false -> socket_server_get_client_count m = 0) /\
  (clients_mutex m = true -> 0 <= r.1.1 ->
     socket_server_get_client_count m' = socket_server_get_client_count m + 1) /\
  (r.1.1 = -1 -> socket_server_get_client_count m' = socket_server_get_client_count m).
Proof.
  cbn zeta. unfold socket_server_get_client_count. cbn.
  pose proof (count_connected_le (clients (table m))) as Hle.
  repeat apply conj.
  - destruct (clients_mutex m); cbn; lia.
  - destruct (clients_mutex m); cbn; lia.
  - by intros ->.
  - intros -> Hidx. cbn. unfold socket_tcp_accept in *.
    destruct (fd <? 0); [cbn in Hidx; lia|].
    destruct (first_free (clients (table m))) as [i|] eqn:Hf; [|cbn in Hidx; lia].
    cbn. apply first_free_Some in Hf as (c & Hc & Hcf & _).
    pose proof (count_connected_insert (clients (table m)) i c (claimed_slot fd a now) Hc) as Hn.
    rewrite Hcf in Hn. cbn [connected claimed_slot] in Hn.
    unfold count_connected in *. lia.
  - intros Hidx. unfold socket_tcp_accept in *.
    destruct (fd <? 0); [done|].
    destruct (first_free (clients (table m))) as [i|] eqn:Hf; [cbn in Hidx; lia|done].
Qed.

(** [ntohs] swaps the two bytes of a 16-bit value, so twice is the
    identity. *)
Lemma ntohs_ntohs (x : Z) : 0 <= x < 65536 -> ntohs (ntohs x) = x.
Proof.
  intros Hx. unfold ntohs. Z.to_euclidean_division_equations. lia.
Qed.

(** X8. [socket_server_get_client_info]: a missing [info], an index outside
    0..9 or a missing mutex gives ESP_ERR_INVALID_ARG; a slot that is not
    connected gives ESP_ERR_NOT_FOUND; in both cases nothing is stored.
    For a connected slot it stores the slot's counters and connect time
    and the port in host byte order.  Right after a stream accept that
    returned slot [i], the info of [i] shows both counters at zero, the
    time of the accept and the peer's port. *)
Theorem client_info_reports_the_slot
    (inet6_ntoa_r : Z -> string) (m : module_state) (index : Z) :
  length (clients (table m)) = MAX_CLIENTS ->
  (index < 0 \/ Z.of_nat MAX_CLIENTS <= index \/ clients_mutex m = false ->
     socket_server_get_client_info inet6_ntoa_r index true m = (ESP_ERR_INVALID_ARG, None)) /\
  socket_server_get_client_info inet6_ntoa_r index false m = (ESP_ERR_INVALID_ARG, None) /\
  (forall c, clients_mutex m = true -> 0 <= index ->
     clients (table m) !! Z.to_nat index = Some c ->
     socket_server_get_client_info inet6_ntoa_r index true m =
       if connected c
       then (Err ESP_OK,
             Some {| info_connected := true;
                     info_address := inet6_ntoa_r (sin6_addr (addr c));
                     info_port := ntohs (sin6_port (addr c));
                     info_bytes_sent := bytes_sent c;
                     info_bytes_received := bytes_received c;
                     info_connect_time := connect_time c |})
       else (ESP_ERR_NOT_FOUND, None)) /\
  (forall fd a now, clients_mutex m = true ->
     let r := socket_tcp_accept fd a now (table m) in
     let m' := {| table := r.1.2; server_running := server_running m;
                  clients_mutex := true |} in
     0 <= r.1.1 ->
     socket_server_get_client_info inet6_ntoa_r r.1.1 true m' =
       (Err ESP_OK,
        Some {| info_connected := true;
                info_address := inet6_ntoa_r (sin6_addr a);
                info_port := ntohs (sin6_port a);
                info_bytes_sent := 0; info_bytes_received := 0;
                info_connect_time := now |})).
Proof.
  intros Hlen. unfold socket_server_get_client_info. repeat apply conj.
  - intros [Hi | [Hi | Hi]]; cbn.
    + destruct (Z.ltb_spec index 0); [done|lia].
    + destruct (Z.leb_spec (Z.of_nat MAX_CLIENTS) index); [|lia].
      by rewrite orb_true_r.
    + rewrite Hi. cbn. by rewrite orb_true_r.
  - done.
  - intros c Hm Hidx Hc. rewrite Hm. cbn.
    assert (Z.to_nat index < length (clients (table m)))%nat as Hlt
      by (eapply lookup_lt_Some; eauto).
    destruct (Z.ltb_spec index 0); [lia|].
    destruct (Z.leb_spec (Z.of_nat MAX_CLIENTS) index); [lia|]. cbn.
    by rewrite Hc.
  - intros fd a now Hm. cbn zeta. intros Hidx. cbn [clients_mutex table negb orb].
    unfold socket_tcp_accept in *.
    destruct (fd <? 0); [cbn in Hidx; lia|].
    destruct (first_free (clients (table m))) as [i|] eqn:Hf; [|cbn in Hidx; lia].
    cbn [fst snd] in *. apply first_free_Some in Hf as (c & Hc & _).
    assert (i < length (clients (table m)))%nat as Hlt by (eapply lookup_lt_Some; eauto).
    destruct (Z.ltb_spec (Z.of_nat i) 0); [lia|].
    destruct (Z.leb_spec (Z.of_nat MAX_CLIENTS) (Z.of_nat i)); [lia|].
    cbn [orb clients set_clients]. rewrite Nat2Z.id.
    by rewrite list_lookup_insert_eq.
Qed.

Lemma client_info_reports_the_slot_witness :
  socket_server_get_client_info (fun _ => "::1"%string) 10 true
    {| table := ServerSamples.full_server; server_running := true; clients_mutex := true |}
  = (ESP_ERR_INVALID_ARG, None).
Proof.
  destruct (client_info_reports_the_slot (fun _ => "::1"%string)
              {| table := ServerSamples.full_server; server_running := true;
                 clients_mutex := true |} 10) as (H & _); [reflexivity|].
  apply H. right; left. unfold MAX_CLIENTS. lia.
Defined.

(** *** Closing slots *)

(** What one [socket_client_close] does to the table and to the
    sockets. *)
Lemma client_close_step (i : nat) (s : server) :
  let r := socket_client_close (Z.of_nat i) s in
  length (clients r.1) = length (clients s) /\
  tcp_server_socket r.1 = tcp_server_socket s /\
  udp_server_socket r.1 = udp_server_socket s /\
  (forall j c', clients r.1 !! j = Some c' -> connected c' = true ->
                clients s !! j = Some c') /\
  (forall c', (i < MAX_CLIENTS)%nat -> clients r.1 !! i = Some c' -> connected c' = false) /\
  (forall fd, EvClose fd ∈ r.2 ->
     fd <> tcp_server_socket s /\ fd <> udp_server_socket s /\
     exists c, clients s !! i = Some c /\ connected c = true /\ socket c = fd).
Proof.
  cbn zeta. unfold socket_client_close. rewrite Nat2Z.id.
  destruct (Z.ltb_spec (Z.of_nat i) 0); [lia|].
  destruct (Z.leb_spec (Z.of_nat MAX_CLIENTS) (Z.of_nat i)) as [Hge|Hlt]; cbn [orb].
  { cbn [fst snd]. repeat split; try done; try (intros; lia); no_event. }
  destruct (clients s !! i) as [c|] eqn:Hc; cycle 1.
  { cbn [fst snd]. repeat split; try done; try (intros; congruence); no_event. }
  destruct (connected c) eqn:Hcc; cycle 1.
  { cbn [fst snd]. repeat split; try done; try (intros; congruence); no_event. }
  cbn [fst snd clients set_clients tcp_server_socket udp_server_socket].
  assert (i < length (clients s))%nat as Hi by (eapply lookup_lt_Some; eauto).
  split; [apply length_insert|]. split; [done|]. split; [done|]. split.
  { intros j c' Hj Hcj. destruct (decide (j = i)) as [->|Hne].
    - rewrite list_lookup_insert_eq in Hj by done. by injection Hj as <-.
    - by rewrite list_lookup_insert_ne in Hj. }
  split.
  { intros c' _ Hj. rewrite list_lookup_insert_eq in Hj by done. by injection Hj as <-. }
  intros fd Hin.
  destruct (Z.eqb_spec (socket c) (tcp_server_socket s)); cbn in Hin;
    [by apply elem_of_nil in Hin|].
  destruct (Z.eqb_spec (socket c) (udp_server_socket s)); cbn in Hin;
    [by apply elem_of_nil in Hin|].
  apply elem_of_cons in Hin as [[= ->]|Hin]; [|by apply elem_of_nil in Hin].
  split; [done|]. split; [done|]. by exists c.
Qed.

(** X9. [socket_client_close]: an index outside 0..9 and a slot that is not
    connected are left alone and nothing is closed; a connected slot is
    zeroed, every other slot stays, the count of connected slots drops by
    one, and the slot's socket is closed unless it is one of the two
    listening sockets (a datagram peer shares the datagram socket). *)
Theorem client_close_outcomes (idx : Z) (s : server) :
  let r := socket_client_close idx s in
  (idx < 0 \/ Z.of_nat MAX_CLIENTS <= idx -> r = (s, [])) /\
  (forall c, 0 <= idx -> clients s !! Z.to_nat idx = Some c ->
     (connected c = false -> r = (s, [])) /\
     (connected c = true -> idx < Z.of_nat MAX_CLIENTS ->
        clients r.1 !! Z.to_nat idx = Some zeroed_slot /\
        (forall j, j <> Z.to_nat idx -> clients r.1 !! j = clients s !! j) /\
        S (count_connected (clients r.1)) = count_connected (clients s) /\
        (socket c <> tcp_server_socket s -> socket c <> udp_server_socket s ->
           r.2 = [EvClose (socket c)]) /\
        (socket c = tcp_server_socket s \/ socket c = udp_server_socket s -> r.2 = []))).
Proof.
  cbn zeta. unfold socket_client_close. split.
  - intros [Hi|Hi].
    + by destruct (Z.ltb_spec idx 0); [|lia].
    + destruct (Z.leb_spec (Z.of_nat MAX_CLIENTS) idx); [|lia]. by rewrite orb_true_r.
  - intros c Hidx Hc. split.
    + intros Hcc. rewrite Hc, Hcc. by destruct (_ || _).
    + intros Hcc Hlt. destruct (Z.ltb_spec idx 0); [lia|].
      destruct (Z.leb_spec (Z.of_nat MAX_CLIENTS) idx); [lia|]. cbn [orb].
      rewrite Hc, Hcc. cbn [fst snd clients set_clients].
      assert (Z.to_nat idx < length (clients s))%nat as Hi by (eapply lookup_lt_Some; eauto).
      repeat split.
      * by apply list_lookup_insert_eq.
      * intros j Hj. by apply list_lookup_insert_ne.
      * pose proof (count_connected_insert (clients s) _ c zeroed_slot Hc) as Hn.
        rewrite Hcc in Hn. cbn [connected zeroed_slot] in Hn. lia.
      * intros Ht Hu. destruct (Z.eqb_spec (socket c) (tcp_server_socket s)); [done|].
        by destruct (Z.eqb_spec (socket c) (udp_server_socket s)).
      * intros [Ht|Hu].
        -- by destruct (Z.eqb_spec (socket c) (tcp_server_socket s)).
        -- destruct (Z.eqb_spec (socket c) (udp_server_socket s)); [|done].
           by rewrite andb_false_r.
Qed.

(** X10. The clean-up loop that follows the read pass calls
    [socket_client_close] only for slots that are not connected, and
    [socket_client_close] acts only on connected slots: the loop changes
    no slot and closes no socket, whatever the table.  A slot marked
    disconnected keeps its handle until an accept overwrites the slot. *)
Theorem cleanup_pass_changes_nothing (s : server) :
  socket_server_cleanup s = (s, []).
Proof.
  unfold socket_server_cleanup. generalize (seq 0 MAX_CLIENTS). intros idxs.
  induction idxs as [|i rest IH]; [done|]. cbn [cleanup_loop].
  assert (cleanup_slot i s = (s, [])) as ->; [|by rewrite IH].
  unfold cleanup_slot. destruct (clients s !! i) as [c|] eqn:Hc; [|done].
  destruct (connected c) eqn:Hcc; [done|]. cbn [negb andb].
  destruct (0 <? socket c); [|done].
  unfold socket_client_close. rewrite Nat2Z.id, Hc, Hcc. by destruct (_ || _).
Qed.

Lemma close_loop_facts (idxs : list nat) (s : server) :
  let r := close_loop idxs s in
  length (clients r.1) = length (clients s) /\
  tcp_server_socket r.1 = tcp_server_socket s /\
  udp_server_socket r.1 = udp_server_socket s /\
  (forall j c', clients r.1 !! j = Some c' -> connected c' = true ->
                clients s !! j = Some c') /\
  (forall j c', j ∈ idxs -> (j < MAX_CLIENTS)%nat -> clients r.1 !! j = Some c' ->
                connected c' = false) /\
  (forall fd, EvClose fd ∈ r.2 ->
     fd <> tcp_server_socket s /\ fd <> udp_server_socket s /\
     exists j c, clients s !! j = Some c /\ connected c = true /\ socket c = fd).
Proof.
  revert s. induction idxs as [|i rest IH]; intros s; cbn zeta.
  { cbn. repeat split; try done; intros; no_event. }
  cbn [close_loop].
  pose proof (client_close_step i s) as (L1 & T1 & U1 & K1 & Z1 & E1).
  destruct (socket_client_close (Z.of_nat i) s) as [s1 t1]. cbn [fst snd] in *.
  pose proof (IH s1) as (L2 & T2 & U2 & K2 & Z2 & E2).
  destruct (close_loop rest s1) as [s2 t2]. cbn [fst snd] in *.
  split; [congruence|]. split; [congruence|]. split; [congruence|].
  split; [eauto|]. split.
  - intros j c' Hin Hlt Hj. apply elem_of_cons in Hin as [->|Hin]; [|eauto].
    destruct (connected c') eqn:Hcc; [|done].
    specialize (K2 _ _ Hj Hcc). specialize (Z1 _ Hlt K2). congruence.
  - intros fd Hin. apply elem_of_app in Hin as [Hin|Hin].
    + destruct (E1 fd Hin) as (? & ? & c & ? & ? & ?). eauto 8.
    + destruct (E2 fd Hin) as (Ht & Hu & j & c & Hj & Hcc & Hs).
      rewrite T1 in Ht. rewrite U1 in Hu. eauto 8.
Qed.

(** X11. The loop that ends the task closes every slot: afterwards no slot
    is connected and the table has its size; every socket it closed was
    the socket of a connected slot, and neither listening socket is among
    them. *)
Theorem close_all_disconnects_every_slot (s : server) :
  length (clients s) = MAX_CLIENTS ->
  let r := socket_server_close_all s in
  length (clients r.1) = MAX_CLIENTS /\
  Forall (fun c => connected c = false) (clients r.1) /\
  count_connected (clients r.1) = 0%nat /\
  (forall fd, EvClose fd ∈ r.2 ->
     fd <> tcp_server_socket s /\ fd <> udp_server_socket s /\
     exists j c, clients s !! j = Some c /\ connected c = true /\ socket c = fd).
Proof.
  intros Hlen. cbn zeta. unfold socket_server_close_all.
  pose proof (close_loop_facts (seq 0 MAX_CLIENTS) s) as (L & _ & _ & _ & Z0 & E).
  destruct (close_loop (seq 0 MAX_CLIENTS) s) as [s' t]. cbn [fst snd] in *.
  assert (Forall (fun c => connected c = false) (clients s')) as Hall.
  { apply Forall_lookup. intros j c' Hj.
    assert (j < MAX_CLIENTS)%nat as Hlt.
    { rewrite <- Hlen, <- L. eapply lookup_lt_Some; eauto. }
    apply (Z0 j c'); [|done|done]. apply elem_of_seq. lia. }
  split; [congruence|]. split; [done|]. split; [|exact E].
  clear -Hall. induction Hall as [|c l Hc _ IH]; [done|].
  rewrite count_connected_cons, Hc, IH. done.
Qed.

Lemma close_all_disconnects_every_slot_witness :
  count_connected (clients (socket_server_close_all ServerSamples.full_server).1) = 0%nat.
Proof.
  apply (close_all_disconnects_every_slot ServerSamples.full_server). reflexivity.
Defined.

(** *** The read pass *)

Lemma read_loop_lookup (udp : Z) (readable : Z -> bool) (rr : nat -> Z)
    (rd : nat -> list Byte.byte) (cl : list socket_client_t) (n k : nat) :
  (read_loop udp readable rr rd n cl).1 !! k =
  (fun c => (read_from_client udp readable (rr (n + k)%nat) (rd (n + k)%nat) c).1) <$> cl !! k.
Proof.
  revert n k. induction cl as [|c rest IH]; intros n k; [by destruct k|].
  cbn [read_loop].
  destruct (read_from_client udp readable (rr n) (rd n) c) as [c' t] eqn:Hc.
  specialize (IH (S n)).
  destruct (read_loop udp readable rr rd (S n) rest) as [rest' t'] eqn:Hr.
  destruct k as [|k]; cbn.
  - by rewrite Nat.add_0_r, Hc.
  - rewrite Nat.add_succ_r. apply IH.
Qed.

Lemma read_loop_trace (udp : Z) (readable : Z -> bool) (rr : nat -> Z)
    (rd : nat -> list Byte.byte) (cl : list socket_client_t) (n m : nat) (ev : event) :
  (m, ev) ∈ (read_loop udp readable rr rd n cl).2 <->
  exists k c, m = (n + k)%nat /\ cl !! k = Some c /\
              ev ∈ (read_from_client udp readable (rr m) (rd m) c).2.
Proof.
  revert n. induction cl as [|c rest IH]; intros n.
  - cbn. rewrite elem_of_nil. split; [done|]. intros (k & u & _ & Hk & _). done.
  - cbn [read_loop].
    destruct (read_from_client udp readable (rr n) (rd n) c) as [c' t] eqn:Hc.
    specialize (IH (S n)).
    destruct (read_loop udp readable rr rd (S n) rest) as [rest' t'] eqn:Hr.
    cbn in *. rewrite elem_of_app, IH, list_elem_of_fmap. split.
    + intros [(y & Hy & Hin) | (k & v & -> & Hk & Hin)].
      * inversion Hy; subst. exists 0%nat, c. rewrite Hc. cbn.
        split; [lia|done].
      * exists (S k), v. split; [lia|done].
    + intros (k & v & -> & Hk & Hin). destruct k as [|k]; cbn in Hk.
      * left. inversion Hk; subst. rewrite Nat.add_0_r, Hc in Hin. exists ev.
        split; [f_equal; lia|done].
      * right. exists k, v. split; [lia|done].
Qed.

Lemma read_loop_length (udp : Z) (readable : Z -> bool) (rr : nat -> Z)
    (rd : nat -> list Byte.byte) (cl : list socket_client_t) (n : nat) :
  length (read_loop udp readable rr rd n cl).1 = length cl.
Proof.
  revert n. induction cl as [|c rest IH]; intros n; [done|].
  cbn [read_loop].
  destruct (read_from_client udp readable (rr n) (rd n) c) as [c' t].
  specialize (IH (S n)).
  destruct (read_loop udp readable rr rd (S n) rest) as [rest' t']. cbn in *. by rewrite IH.
Qed.

(** X12. The read pass over the stream peers.  For a connected stream slot
    that [select] reported readable: a [recv] that returns data adds its
    length to the slot's received counter (32 bits) and forwards exactly
    those bytes to the UART; a [recv] that returns 0 or fails marks the
    slot disconnected and forwards nothing.  Free slots, datagram slots
    and slots that are not readable are not touched.  What happens to a
    slot depends on no other slot, and the table keeps its size. *)
Theorem read_pass_acts_slot_by_slot
    (readable : Z -> bool) (recv_result : nat -> Z) (recv_data : nat -> list Byte.byte)
    (s : server) (i : nat) (c : socket_client_t) :
  clients s !! i = Some c ->
  let r := socket_server_read_clients readable recv_result recv_data s in
  let polled := connected c && negb (socket c =? udp_server_socket s) && readable (socket c) in
  length (clients r.1) = length (clients s) /\
  (polled = true -> 0 < recv_result i ->
     clients r.1 !! i =
       Some (set_bytes_received (wrap32 (bytes_received c + recv_result i)) c) /\
     forall ev, (i, ev) ∈ r.2 <->
                ev = EvUartWrite (take (Z.to_nat (recv_result i)) (recv_data i))) /\
  (polled = true -> recv_result i <= 0 ->
     clients r.1 !! i = Some (set_connected false c) /\ forall ev, (i, ev) ∉ r.2) /\
  (polled = false -> clients r.1 !! i = Some c /\ forall ev, (i, ev) ∉ r.2).
Proof.
  intros Hi. cbn zeta. unfold socket_server_read_clients.
  pose proof (read_loop_lookup (udp_server_socket s) readable recv_result recv_data
                (clients s) 0 i) as Hl.
  pose proof (read_loop_trace (udp_server_socket s) readable recv_result recv_data
                (clients s) 0 i) as Ht.
  pose proof (read_loop_length (udp_server_socket s) readable recv_result recv_data
                (clients s) 0) as Hn.
  destruct (read_loop (udp_server_socket s) readable recv_result recv_data 0 (clients s))
    as [cl t].
  cbn [fst snd clients set_clients] in *. rewrite Hi in Hl. cbn in Hl.
  assert (forall ev, (i, ev) ∈ t <->
            ev ∈ (read_from_client (udp_server_socket s) readable (recv_result i)
                    (recv_data i) c).2) as Ht'.
  { intros ev. rewrite Ht. split.
    - intros (k & v & Hik & Hk & Hin). cbn in Hik. subst k. congruence.
    - intros Hin. exists i, c. done. }
  clear Ht. unfold read_from_client in *.
  split; [done|]. repeat apply conj.
  - intros Hp Hlen. rewrite Hp in Hl, Ht'.
    destruct (Z.ltb_spec 0 (recv_result i)); [|lia]. cbn in *.
    split; [done|]. intros ev. rewrite Ht', elem_of_cons, elem_of_nil. tauto.
  - intros Hp Hlen. rewrite Hp in Hl, Ht'.
    destruct (Z.ltb_spec 0 (recv_result i)); [lia|]. cbn in *.
    split; [done|]. intros ev. rewrite Ht'. apply not_elem_of_nil.
  - intros Hp. rewrite Hp in Hl, Ht'. cbn in *.
    split; [done|]. intros ev. rewrite Ht'. apply not_elem_of_nil.
Qed.

Lemma read_pass_acts_slot_by_slot_witness :
  (connected <$>
     clients (socket_server_read_clients (fun _ => true) (fun i => if (i =? 2)%nat then 0 else 5)
                (fun _ => [Byte.x01; Byte.x02; Byte.x03; Byte.x04; Byte.x05])
                ServerSamples.full_server).1 !! 2%nat) = Some false.
Proof.
  destruct (read_pass_acts_slot_by_slot (fun _ => true)
              (fun i => if (i =? 2)%nat then 0 else 5)
              (fun _ => [Byte.x01; Byte.x02; Byte.x03; Byte.x04; Byte.x05])
              ServerSamples.full_server 2 (claimed_slot 12 (ServerSamples.peer 1 5002) 100))
    as (_ & _ & H & _); [reflexivity|].
  destruct H as [-> _]; [reflexivity | cbn; lia | reflexivity].
Defined.

(** *** Transports *)

(** X13. A peer claimed by [socket_udp_accept] is sent to with [sendto] on
    the datagram socket at the address the slot remembers; a peer
    accepted by [socket_tcp_accept] on another handle is sent to with
    [send] on that handle. *)
Theorem broadcast_uses_the_slot_transport
    (s : server) (a : sockaddr_in6) (now : Z) (sr : nat -> Z) (data : list Byte.byte) :
  (forall len i, 0 <= len -> first_match a (clients s) = None ->
     first_free (clients s) = Some i ->
     let s1 := (socket_udp_accept len a now (udp_server_socket s) s).2 in
     (i, EvSendTo (udp_server_socket s) a data) ∈ (socket_send_to_all_clients sr data s1).2) /\
  (forall fd i, 0 <= fd -> fd <> udp_server_socket s ->
     first_free (clients s) = Some i ->
     let s1 := (socket_tcp_accept fd a now s).1.2 in
     (i, EvSend fd data) ∈ (socket_send_to_all_clients sr data s1).2).
Proof.
  split.
  - intros len i Hlen Hm Hf. cbn zeta. unfold socket_udp_accept.
    destruct (Z.ltb_spec len 0); [lia|]. rewrite Hm, Hf. cbn [snd].
    apply first_free_Some in Hf as (c & Hc & _).
    assert (i < length (clients s))%nat as Hi by (eapply lookup_lt_Some; eauto).
    set (s1 := set_clients _ s).
    assert (clients s1 !! i = Some (claimed_slot (udp_server_socket s) a now)) as H1.
    { subst s1. cbn. by apply list_lookup_insert_eq. }
    apply (broadcast_slot sr data s1 i _ H1).
    unfold send_to_client, send_call. cbn. rewrite Z.eqb_refl.
    destruct (sr i <? 0); cbn; apply list_elem_of_here.
  - intros fd i Hfd Hne Hf. cbn zeta. unfold socket_tcp_accept.
    destruct (Z.ltb_spec fd 0); [lia|]. rewrite Hf. cbn [fst snd].
    apply first_free_Some in Hf as (c & Hc & _).
    assert (i < length (clients s))%nat as Hi by (eapply lookup_lt_Some; eauto).
    set (s1 := set_clients _ s).
    assert (clients s1 !! i = Some (claimed_slot fd a now)) as H1.
    { subst s1. cbn. by apply list_lookup_insert_eq. }
    apply (broadcast_slot sr data s1 i _ H1).
    unfold send_to_client, send_call. cbn.
    destruct (Z.eqb_spec fd (udp_server_socket s)); [done|].
    destruct (sr i <? 0); cbn; apply list_elem_of_here.
Qed.

(** The send loop connects no slot. *)
Lemma send_loop_count (udp : Z) (data : list Byte.byte) (sr : nat -> Z)
    (cl : list socket_client_t) (n : nat) :
  (count_connected (send_loop udp data sr n cl).1 <= count_connected cl)%nat /\
  ((forall k, 0 <= sr k) ->
   count_connected (send_loop udp data sr n cl).1 = count_connected cl).
Proof.
  revert n. induction cl as [|c rest IH]; intros n; [done|].
  cbn [send_loop]. destruct (IH (S n)) as [IH1 IH2].
  unfold send_to_client.
  destruct (send_loop udp data sr (S n) rest) as [rest' t'] eqn:Hr. cbn [fst] in *.
  destruct (connected c) eqn:Hc.
  - destruct (Z.ltb_spec (sr n) 0); cbn [fst];
      rewrite !count_connected_cons; cbn [connected set_connected set_bytes_sent];
      rewrite ?Hc.
    + split; [lia|]. intros Hall. specialize (Hall n). lia.
    + split; [lia|]. intros Hall. rewrite IH2; done.
  - cbn [fst]. rewrite !count_connected_cons, Hc. split; [lia|].
    intros Hall. rewrite IH2; done.
Qed.

(** X14. A broadcast never connects a slot: the number of connected slots
    does not grow, and stays the same when no send fails; the two
    listening sockets stay as they were. *)
Theorem broadcast_never_connects (sr : nat -> Z) (data : list Byte.byte) (s : server) :
  let s' := (socket_send_to_all_clients sr data s).1 in
  (count_connected (clients s') <= count_connected (clients s))%nat /\
  ((forall k, 0 <= sr k) -> count_connected (clients s') = count_connected (clients s)) /\
  tcp_server_socket s' = tcp_server_socket s /\
  udp_server_socket s' = udp_server_socket s.
Proof.
  cbn zeta. unfold socket_send_to_all_clients.
  pose proof (send_loop_count (udp_server_socket s) data sr (clients s) 0) as [H1 H2].
  destruct (send_loop (udp_server_socket s) data sr 0 (clients s)) as [cl t].
  cbn in *. done.
Qed.

(** *** Opening the listening sockets *)

(** X15. [socket_tcp_init] answers a valid handle exactly when [socket],
    [bind] and [listen] all succeeded, and that handle is the one
    [socket] gave; every failure is answered with -1, and a socket that
    was created but could not be bound or put to listen is closed, once. *)
Theorem tcp_init_closes_on_failure (socket_result bind_result listen_result : Z) :
  let r := socket_tcp_init socket_result bind_result listen_result in
  (0 <= r.1 <-> 0 <= socket_result /\ bind_result = 0 /\ listen_result = 0) /\
  (0 <= r.1 -> r.1 = socket_result /\ r.2 = []) /\
  (r.1 < 0 -> r.1 = -1) /\
  (r.1 < 0 -> 0 <= socket_result -> r.2 = [EvClose socket_result]) /\
  (socket_result < 0 -> r = (-1, [])).
Proof.
  cbn zeta. unfold socket_tcp_init, socket_init.
  destruct (Z.ltb_spec socket_result 0) as [Hs|Hs]; cbn.
  { repeat split; try done; try lia; intros (? & ? & ?); first [lia | done]. }
  destruct (Z.eqb_spec bind_result 0) as [Hb|Hb]; cbn.
  - destruct (Z.ltb_spec socket_result 0); [lia|].
    destruct (Z.eqb_spec listen_result 0) as [Hl|Hl]; cbn;
      repeat split; try done; try lia; intros (? & ? & ?); first [lia | done].
  - repeat split; try done; try lia; intros (? & ? & ?); first [lia | done].
Qed.

Lemma socket_udp_accept_again_witness :
  let r1 := socket_udp_accept 1 ServerSamples.sender_S 100 4 ServerSamples.fresh_server in
  socket_udp_accept 1 ServerSamples.sender_S 101 4 r1.2 = (0, r1.2).
Proof.
  pose proof (socket_udp_accept_again 1 1 ServerSamples.sender_S 100 101 4
                ServerSamples.fresh_server) as H.
  cbn zeta.
  destruct (socket_udp_accept 1 ServerSamples.sender_S 100 4 ServerSamples.fresh_server)
    as [i s1] eqn:E.
  cbn [snd]. rewrite H by lia. f_equal.
  apply (f_equal fst) in E. vm_compute in E. by subst i.
Defined.

End ServerMore.

(** ** The socket client: disconnect, the task's turn, connect, init *)
Section ClientMore.
Import SocketClient.

Ltac unfold_body :=
  unfold run, socket_client_disconnect, prog_bind, get, when_, emit, modify, prog_ret.

(** X17. [socket_client_disconnect] leaves the client disconnected with no
    valid handle; it closes the socket exactly when the handle was valid,
    so a second disconnect closes nothing, and every send after it is
    refused with ESP_ERR_INVALID_STATE without a call. *)
Theorem disconnect_is_final (now now' send_result : Z) (data : list Byte.byte) (c : client) :
  let r := run (socket_client_disconnect now) c in
  connected r.1 = false /\ client_socket r.1 < 0 /\
  last_disconnect_time (client_stats r.1) = now /\
  closed_handles r.2 = (if 0 <=? client_socket c then [client_socket c] else []) /\
  closed_handles (run (socket_client_disconnect now') r.1).2 = [] /\
  socket_client_send_data send_result now' data r.1 = (ESP_ERR_INVALID_STATE, r.1, []).
Proof.
  cbn zeta. destruct c as [rn fd st conn]. unfold socket_client_send_data. unfold_body. cbn.
  destruct (0 <=? fd) eqn:E; cbn; rewrite ?E; cbn; repeat split; try done.
  apply Z.leb_gt in E. lia.
Qed.

(** X18. One turn of the task of a connected client.  A [recv] that returns
    0, or fails for another reason than the timeout, disconnects: the
    socket is closed once, nothing goes to the UART and nothing is sent.
    A [recv] that returns data forwards exactly those bytes to the UART
    and adds their number to bytes_received (32 bits), before anything
    is sent.  On a timeout nothing goes to the UART and the received
    counter stays. *)
Theorem client_turn_outcomes
    (recv_result : Z) (would_block : bool) (recv_data uart_data : list Byte.byte)
    (send_result now : Z) (c : client) :
  connected c = true -> 0 <= client_socket c ->
  let r := socket_client_task_turn recv_result would_block recv_data uart_data
             send_result now c in
  (recv_result = 0 \/ (recv_result < 0 /\ would_block = false) ->
     r.2 = [Net (EvClose (client_socket c)); Net (EvStatusLed 0xFF000000)] /\
     connected r.1 = false /\ client_socket r.1 = -1 /\
     client_stats r.1 = set_last_disconnect_time now (client_stats c)) /\
  (0 < recv_result ->
     head r.2 = Some (EvUartWrite UART_NUM_0 (take (Z.to_nat recv_result) recv_data)) /\
     bytes_received (client_stats r.1) =
       wrap32 (bytes_received (client_stats c) + recv_result)) /\
  (recv_result < 0 -> would_block = true ->
     (forall p d, EvUartWrite p d ∉ r.2) /\
     bytes_received (client_stats r.1) = bytes_received (client_stats c)) /\
  (recv_result < 0 -> would_block = true -> uart_data = [] -> r = (c, [])).
Proof.
  intros Hc Hfd. cbn zeta. destruct c as [rn fd st conn]. cbn in Hc, Hfd. subst conn.
  unfold socket_client_task_turn, send_uart_data, socket_client_send_data. unfold_body.
  cbn [connected client_socket client_stats negb orb set_client_stats].
  assert ((fd <? 0) = false) as Hfd1 by (apply Z.ltb_ge; lia).
  assert ((0 <=? fd) = true) as Hfd2 by (apply Z.leb_le; lia).
  repeat apply conj.
  - intros [-> | [Hr ->]].
    + cbn. rewrite Hfd2. cbn. done.
    + destruct (Z.ltb_spec recv_result 0); [|lia]. cbn. rewrite Hfd2. cbn. done.
  - intros Hr. destruct (Z.ltb_spec recv_result 0); [lia|].
    destruct (Z.eqb_spec recv_result 0); [lia|].
    destruct uart_data as [|b rest]; cbn; [done|].
    rewrite Hfd1. cbn. destruct (send_result <? 0); cbn; rewrite ?Hfd2; cbn; done.
  - intros Hr ->. destruct (Z.ltb_spec recv_result 0); [|lia].
    destruct uart_data as [|b rest]; cbn.
    { split; [|done]. intros p d. apply not_elem_of_nil. }
    rewrite Hfd1. cbn. destruct (send_result <? 0); cbn; rewrite ?Hfd2; cbn.
    + split; [|done]. intros p d Hin.
      repeat (apply elem_of_cons in Hin as [Hin|Hin]; [discriminate Hin|]).
      by apply elem_of_nil in Hin.
    + split; [|done]. intros p d Hin.
      repeat (apply elem_of_cons in Hin as [Hin|Hin]; [discriminate Hin|]).
      by apply elem_of_nil in Hin.
  - intros Hr -> ->. by destruct (Z.ltb_spec recv_result 0); [|lia].
Qed.

Lemma client_turn_outcomes_witness :
  let c := {| client_running := true; client_socket := 6;
              client_stats := zero_stats; connected := true |} in
  connected (socket_client_task_turn 0 false [] [] 0 50 c).1 = false.
Proof.
  destruct (client_turn_outcomes 0 false [] [] 0 50
              {| client_running := true; client_socket := 6;
                 client_stats := zero_stats; connected := true |})
    as (H & _); [reflexivity | cbn; lia |].
  destruct H as (_ & H & _); [by left|]. exact H.
Defined.

(** *** Connecting *)

Lemma next_delay_after (k : nat) : next_delay (delay_after k) = delay_after (S k).
Proof.
  unfold next_delay, delay_after, RECONNECT_DELAY_MS, MAX_RECONNECT_DELAY_MS.
  rewrite Nat2Z.inj_succ, Z.pow_succ_r by lia.
  assert (0 < 2 ^ Z.of_nat k) by (apply Z.pow_pos_nonneg; lia).
  generalize dependent (2 ^ Z.of_nat k). intros x Hx.
  destruct (Z.gtb_spec (Z.min (5000 * x) 60000 * 2) 60000); lia.
Qed.

Lemma connect_loop_delays (msg : option (list Byte.byte)) (turns : list turn)
    (k : nat) (c : client) (t : list event) :
  connected c = false -> Forall (fun tn => fails_to_connect tn = true) turns ->
  backoff_delays (result_trace (connect_loop msg turns (delay_after k) c t)) =
  backoff_delays t ++ (delay_after <$> seq k (length turns)).
Proof.
  revert k c t. induction turns as [|tn rest IH]; intros k c t Hc Hall.
  { cbn. by rewrite app_nil_r. }
  apply Forall_cons in Hall as [Htn Hall]. unfold fails_to_connect in Htn.
  apply andb_prop in Htn as [Hrun Hout].
  cbn [connect_loop length seq fmap list_fmap].
  cbn [client_running set_client_running connected]. rewrite Hrun, Hc. cbn [negb andb].
  destruct (outcome tn) as [|fd|fd|fd now g n]; try discriminate.
  - rewrite next_delay_after, IH by done.
    rewrite backoff_delays_app. cbn. by rewrite <- app_assoc.
  - rewrite next_delay_after, IH by done.
    rewrite backoff_delays_app. cbn. by rewrite <- app_assoc.
Qed.

(** X19. While resolving or connecting keeps failing, the delay before the
    attempt that follows the [k]-th failure is 5000 ms doubled [k] times,
    cut at 60000 ms: 5000, 10000, 20000, 40000, 60000, 60000, ... *)
Theorem backoff_doubles_to_the_cap
    (msg : option (list Byte.byte)) (turns : list turn) (c : client) :
  connected c = false -> Forall (fun tn => fails_to_connect tn = true) turns ->
  backoff_delays (result_trace (socket_client_connect msg true [] turns c)) =
  delay_after <$> seq 0 (length turns).
Proof.
  intros Hc Hall. unfold socket_client_connect.
  change RECONNECT_DELAY_MS with (delay_after 0).
  by rewrite connect_loop_delays.
Qed.

Lemma backoff_doubles_to_the_cap_witness :
  backoff_delays
    (result_trace
       (socket_client_connect None true []
          (replicate 6 {| running := true; outcome := ConnectFails 6 |})
          {| client_running := true; client_socket := -1;
             client_stats := zero_stats; connected := false |}))
  = [5000; 10000; 20000; 40000; 60000; 60000].
Proof.
  rewrite backoff_doubles_to_the_cap; [reflexivity | reflexivity |].
  by repeat constructor.
Defined.

(** X20. The first turn that connects ends the call with ESP_OK, whatever
    turns would follow: the connection count grows by one and the connect
    time is set.  Without a greeting nothing is sent and the client is
    connected on the new handle.  With a greeting, the greeting and then
    CRLF are sent on the new handle; if the greeting cannot be sent the
    socket is closed, CRLF is not sent, and the call still answers ESP_OK
    although the client is disconnected again. *)
Theorem connect_success_outcomes
    (msg : option (list Byte.byte)) (fd now g n : Z) (rest : list turn) (c : client) :
  connected c = false -> 0 <= fd ->
  let first := {| running := true; outcome := Connects fd now g n |} in
  exists c' t,
    socket_client_connect msg true [] (first :: rest) c =
      Returned ESP_OK RECONNECT_DELAY_MS c' t /\
    connection_count (client_stats c') = wrap32 (connection_count (client_stats c) + 1) /\
    last_connect_time (client_stats c') = now /\
    (msg = None \/ msg = Some [] ->
       t = [EvStatusLed 0x00FF0000] /\ connected c' = true /\ client_socket c' = fd) /\
    (forall b m, msg = Some (b :: m) -> 0 <= g -> 0 <= n ->
       t = [EvSend fd (b :: m); EvSend fd newline_bytes; EvStatusLed 0x00FF0000] /\
       connected c' = true /\ client_socket c' = fd /\
       bytes_sent (client_stats c') =
         wrap32 (wrap32 (bytes_sent (client_stats c) + g) + n)) /\
    (forall b m, msg = Some (b :: m) -> g < 0 ->
       t = [EvSend fd (b :: m); EvClose fd; EvStatusLed 0xFF000000; EvStatusLed 0x00FF0000] /\
       connected c' = false /\ client_socket c' = -1).
Proof.
  intros Hc Hfd. cbn zeta. unfold socket_client_connect. cbn [connect_loop running outcome].
  cbn [client_running set_client_running connected]. rewrite Hc. cbn [negb andb].
  destruct (connect_success msg fd now g n (set_client_running true c)) as [c' t] eqn:E.
  exists c', t. split; [done|].
  unfold connect_success, socket_client_send_data in E. unfold_body.
  destruct c as [rn fd0 st conn]. cbn in Hc. subst conn.
  assert ((fd <? 0) = false) as Hfd1 by (apply Z.ltb_ge; lia).
  assert ((0 <=? fd) = true) as Hfd2 by (apply Z.leb_le; lia).
  destruct msg as [[|b m]|].
  - cbn in E. injection E as <- <-. cbn. repeat split; try done.
  - revert E. cbn. rewrite Hfd1. cbn.
    destruct (Z.ltb_spec g 0) as [Hg|Hg]; cbn.
    + unfold_body. cbn. rewrite Hfd2. cbn. intros [= <- <-]. cbn.
      repeat split; try done; intros; try lia; simplify_eq; try done;
          match goal with H : _ \/ _ |- _ => by destruct H end.
    + rewrite Hfd1. cbn. destruct (Z.ltb_spec n 0) as [Hn|Hn]; cbn.
      * unfold_body. cbn. rewrite Hfd2. cbn. intros [= <- <-]. cbn.
        repeat split; try done; intros; try lia; simplify_eq; try done;
          match goal with H : _ \/ _ |- _ => by destruct H end.
      * intros [= <- <-]. cbn.
        repeat split; try done; intros; try lia; simplify_eq; try done;
          match goal with H : _ \/ _ |- _ => by destruct H end.
  - cbn in E. injection E as <- <-. cbn. repeat split; try done.
Qed.

Lemma connect_success_outcomes_witness :
  exists c' t,
    socket_client_connect (Some [Byte.x68; Byte.x69]) true []
      [{| running := true; outcome := Connects 6 77 (-1) 2 |}]
      {| client_running := true; client_socket := -1;
         client_stats := zero_stats; connected := false |}
    = Returned ESP_OK RECONNECT_DELAY_MS c' t /\ connected c' = false.
Proof.
  destruct (connect_success_outcomes (Some [Byte.x68; Byte.x69]) 6 77 (-1) 2 []
              {| client_running := true; client_socket := -1;
                 client_stats := zero_stats; connected := false |})
    as (c' & t & E & _ & _ & _ & _ & H); [reflexivity | lia |].
  exists c', t. split; [exact E|].
  destruct (H Byte.x68 [Byte.x69]) as (_ & Hd & _); [reflexivity | lia | exact Hd].
Defined.

(** *** Starting the client *)

(** X21. [socket_client_init] starts the task, answering ESP_OK with
    [client_running] set, exactly when the client was not running, is
    enabled, has a non-empty host and a port in 1..65535, and the task
    could be created; then the statistics are zero but for the start
    time.  A client that is already running gives ESP_ERR_INVALID_STATE,
    a disabled one ESP_OK, a bad host or port ESP_ERR_INVALID_ARG, all
    three with the state untouched; a task that cannot be created gives
    ESP_ERR_NO_MEM and the client is not running. *)
Theorem client_init_outcomes
    (enabled : bool) (host : string) (port : Z) (task_created : bool) (now : Z) (c : client) :
  let r := socket_client_init enabled host port task_created now c in
  let valid := host <> EmptyString /\ 1 <= port <= 65535 in
  (client_running c = true -> r = (Err ESP_ERR_INVALID_STATE, c)) /\
  (client_running c = false -> enabled = false -> r = (Err ESP_OK, c)) /\
  (client_running c = false -> enabled = true -> ~ valid -> r = (ESP_ERR_INVALID_ARG, c)) /\
  (client_running c = false -> enabled = true -> valid ->
     client_stats r.2 = set_start_time now zero_stats /\
     client_socket r.2 = client_socket c /\ connected r.2 = connected c /\
     (task_created = true -> r.1 = Err ESP_OK /\ client_running r.2 = true) /\
     (task_created = false -> r.1 = ESP_ERR_NO_MEM /\ client_running r.2 = false)) /\
  (client_running r.2 = true ->
     client_running c = true \/ (enabled = true /\ valid /\ task_created = true)).
Proof.
  cbn zeta. unfold socket_client_init.
  destruct (client_running c) eqn:Hrun; [repeat split; try done; auto|].
  destruct enabled; cbn [negb]; cycle 1.
  { repeat split; try done; intros; cbn in *; congruence. }
  destruct (String.length host =? 0)%nat eqn:Hlen.
  { apply Nat.eqb_eq in Hlen. assert (host = EmptyString) as Hh by (by destruct host).
    repeat split; try done; intros; cbn in *; first [congruence | tauto]. }
  assert (host <> EmptyString) as Hne.
  { intros ->. cbn in Hlen. discriminate Hlen. }
  destruct (Z.leb_spec port 0) as [Hp|Hp]; cbn [orb].
  { repeat split; try done; intros; cbn in *; first [congruence | lia]. }
  destruct (Z.ltb_spec 65535 port) as [Hq|Hq].
  { repeat split; try done; intros; cbn in *; first [congruence | lia]. }
  destruct task_created; cbn;
    repeat split; try done; try lia; try (intros ? ? Hn; destruct Hn; split; [done|lia]);
    try (intros; cbn in *; congruence).
  right. repeat split; try done; lia.
Qed.

End ClientMore.

(** ** The SD card logger: rotation and switching *)
Section SdLoggerMore.
Import SdLogger.

(** X22. The date check with logging enabled.  On the day of the current
    file it does nothing.  On another day it closes the file that is
    open, opens the file named after the new day and remembers the new
    day whether or not the open succeeded; so a second check on that day
    does nothing, and a failed open is not tried again that day. *)
Theorem check_date_rotates_once_a_day (e : env) (s : sd_logger) :
  logging_enabled s = true ->
  let r := sd_logger_check_date e s in
  (current_date s = new_date e -> r = (ESP_OK, s, [])) /\
  (current_date s <> new_date e ->
     current_date r.1.2 = new_date e /\ log_file r.1.2 = fopen_result e /\
     logging_enabled r.1.2 = true /\
     r.2 = match log_file s with Some f => [EvFclose f] | None => [] end ++
           [EvFopen (log_filename (new_date e))] /\
     (r.1.1 = ESP_OK <-> is_Some (fopen_result e)) /\
     (r.1.1 = ESP_FAIL <-> fopen_result e = None)) /\
  (forall e', new_date e' = new_date e ->
     sd_logger_check_date e' r.1.2 = (ESP_OK, r.1.2, [])).
Proof.
  intros Hen. cbn zeta. unfold sd_logger_check_date. rewrite Hen. cbn [negb].
  case_bool_decide as Hd.
  - split; [done|]. split; [done|].
    intros e' He'. cbn [fst snd]. rewrite Hen. cbn [negb].
    rewrite bool_decide_eq_true_2; [done|congruence].
  - split; [done|]. split.
    + intros _. cbn [fst snd set_log_file set_current_date log_file current_date
                     logging_enabled].
      split; [done|]. split; [done|]. split; [done|]. split; [done|].
      destruct (fopen_result e) as [f'|]; split; split; intros H; try done.
      all: try by destruct H.
    + intros e' He'. cbn [fst snd set_log_file set_current_date log_file current_date
                          logging_enabled]. rewrite Hen. cbn [negb].
      by rewrite bool_decide_eq_true_2.
Qed.

Lemma check_date_rotates_once_a_day_witness :
  let s := {| log_file := Some 9; current_date := "20240101"; logging_enabled := true |} in
  let e := {| new_date := "20240102"; fopen_result := None; fwrite_result := 0 |} in
  (sd_logger_check_date e s).2 = [EvFclose 9; EvFopen "/sdcard/logs/20240102.rtcm"].
Proof.
  destruct (check_date_rotates_once_a_day
              {| new_date := "20240102"; fopen_result := None; fwrite_result := 0 |}
              {| log_file := Some 9; current_date := "20240101"; logging_enabled := true |})
    as (_ & H & _); [reflexivity|].
  destruct H as (_ & _ & _ & H & _); [discriminate|]. exact H.
Defined.

(** X23. A rotation whose open fails stops the logging without telling
    anybody: the write that met the new day answers ESP_FAIL after
    closing the old file, and every later write, on that day or on any
    other, answers ESP_OK and makes no call, since a write looks at the
    date only while a file is open. *)
Theorem failed_rotation_silences_later_writes
    (e e' : env) (data data' : list Byte.byte) (s : sd_logger) (f : Z) :
  logging_enabled s = true -> log_file s = Some f ->
  current_date s <> new_date e -> fopen_result e = None ->
  let r := sd_logger_write e data s in
  r.1.1 = ESP_FAIL /\
  r.2 = [EvFclose f; EvFopen (log_filename (new_date e))] /\
  log_file r.1.2 = None /\ sd_logger_is_enabled r.1.2 = true /\
  sd_logger_write e' data' r.1.2 = (ESP_OK, r.1.2, []).
Proof.
  intros Hen Hf Hd Ho. cbn zeta. unfold sd_logger_write, sd_logger_check_date.
  rewrite Hen, Hf. cbn [negb orb]. rewrite bool_decide_eq_true_2 by eauto.
  cbn [negb]. rewrite bool_decide_eq_false_2 by done. rewrite Ho. cbn.
  split; [done|]. split; [done|]. split; [done|]. split; [done|].
  by rewrite orb_true_r.
Qed.

Lemma failed_rotation_silences_later_writes_witness :
  let s := {| log_file := Some 9; current_date := "20240101"; logging_enabled := true |} in
  let e := {| new_date := "20240102"; fopen_result := None; fwrite_result := 3 |} in
  let e' := {| new_date := "20240103"; fopen_result := Some 4; fwrite_result := 1 |} in
  sd_logger_write e' [Byte.x01] (sd_logger_write e [Byte.x01] s).1.2
  = (ESP_OK, (sd_logger_write e [Byte.x01] s).1.2, []).
Proof.
  apply (failed_rotation_silences_later_writes
           {| new_date := "20240102"; fopen_result := None; fwrite_result := 3 |}
           {| new_date := "20240103"; fopen_result := Some 4; fwrite_result := 1 |}
           [Byte.x01] [Byte.x01]
           {| log_file := Some 9; current_date := "20240101"; logging_enabled := true |} 9);
    [reflexivity | reflexivity | discriminate | reflexivity].
Defined.

(** X24. On a new day the data goes to the new file: the old file is closed,
    the file of the new day is opened, and the write and the flush are
    made on the handle that the open returned. *)
Theorem write_after_rotation_uses_the_new_file
    (e : env) (data : list Byte.byte) (s : sd_logger) (f f' : Z) :
  logging_enabled s = true -> log_file s = Some f ->
  current_date s <> new_date e -> fopen_result e = Some f' ->
  let r := sd_logger_write e data s in
  log_file r.1.2 = Some f' /\ current_date r.1.2 = new_date e /\
  (fwrite_result e = Z.of_nat (length data) ->
     r.1.1 = ESP_OK /\
     r.2 = [EvFclose f; EvFopen (log_filename (new_date e));
            EvFwrite f' data (Z.of_nat (length data)); EvFflush f']) /\
  (fwrite_result e <> Z.of_nat (length data) ->
     r.1.1 = ESP_FAIL /\
     r.2 = [EvFclose f; EvFopen (log_filename (new_date e));
            EvFwrite f' data (fwrite_result e)]).
Proof.
  intros Hen Hf Hd Ho. cbn zeta. unfold sd_logger_write, sd_logger_check_date.
  rewrite Hen, Hf. cbn [negb orb]. rewrite bool_decide_eq_true_2 by eauto.
  cbn [negb]. rewrite bool_decide_eq_false_2 by done. rewrite Ho.
  cbn [log_file set_log_file set_current_date].
  destruct (Z.eqb_spec (fwrite_result e) (Z.of_nat (length data))) as [Heq|Hne]; cbn.
  - repeat split; try done. by rewrite Heq.
  - repeat split; try done.
Qed.

Lemma write_after_rotation_uses_the_new_file_witness :
  let s := {| log_file := Some 9; current_date := "20240101"; logging_enabled := true |} in
  let e := {| new_date := "20240102"; fopen_result := Some 11; fwrite_result := 1 |} in
  log_file (sd_logger_write e [Byte.x01] s).1.2 = Some 11.
Proof.
  apply (write_after_rotation_uses_the_new_file
           {| new_date := "20240102"; fopen_result := Some 11; fwrite_result := 1 |}
           [Byte.x01]
           {| log_file := Some 9; current_date := "20240101"; logging_enabled := true |} 9 11);
    [reflexivity | reflexivity | discriminate | reflexivity].
Defined.

(** X25. Switching the logging off closes the open file, once, and every
    later write answers ESP_OK without a call; switching it on is a date
    check with logging enabled, so it opens the file of the day unless
    the remembered day is already today. *)
Theorem enable_switches_logging (e e' : env) (data : list Byte.byte) (s : sd_logger) :
  let off := sd_logger_enable false e s in
  let on := sd_logger_enable true e s in
  off.1.1 = ESP_OK /\
  sd_logger_is_enabled off.1.2 = false /\ log_file off.1.2 = None /\
  off.2 = match log_file s with Some f => [EvFclose f] | None => [] end /\
  sd_logger_write e' data off.1.2 = (ESP_OK, off.1.2, []) /\
  sd_logger_enable false e' off.1.2 = (ESP_OK, off.1.2, []) /\
  sd_logger_is_enabled on.1.2 = true /\
  (current_date s <> new_date e ->
     log_file on.1.2 = fopen_result e /\
     EvFopen (log_filename (new_date e)) ∈ on.2) /\
  (current_date s = new_date e -> log_file on.1.2 = log_file s /\ on.2 = []).
Proof.
  cbn zeta. unfold sd_logger_enable, sd_logger_is_enabled, sd_logger_write,
    sd_logger_check_date.
  destruct s as [lf cd en]. cbn [log_file current_date logging_enabled set_logging_enabled
                                  set_log_file set_current_date negb].
  repeat apply conj.
  - by destruct lf.
  - by destruct lf.
  - by destruct lf.
  - by destruct lf.
  - by destruct lf.
  - by destruct lf.
  - by case_bool_decide.
  - intros Hd. rewrite bool_decide_eq_false_2 by done. cbn. split; [done|].
    apply elem_of_app. right. apply list_elem_of_here.
  - intros Hd. by rewrite bool_decide_eq_true_2.
Qed.

End SdLoggerMore.
